(** * Finmarket client: chart response parser, search mapper, request builder

    A shallow embedding of [finmarket/client.py] and [finmarket/models.py].

    Conventions of the embedding.
    - A Python [str] is a list of characters, one [ascii] per code point; the
      model therefore covers texts whose code points lie in U+0000..U+00FF.
      In that range the decimal digits (the regex class [\d], and the digits
      [int()] and [float()] accept) are exactly '0'..'9', and the whitespace
      of [str.strip()] is U+0009..U+000D, U+001C..U+0020, U+0085 and U+00A0.
    - String literals of the source are Rocq string literals, read as lists
      of characters through a coercion; dictionary keys stay [string]s.
    - A Python value whose type is only known at run time is a [pyvalue].
    - Code that may raise returns a [result]: [Ok v] or [Raise e].
    - A Python [float] is an IEEE-754 binary64 number, kept as sign, integer
      significand and binary exponent in canonical form; [float()] rounds
      to nearest, ties to even.
    - What the client takes from its environment is a variable of the
      section [Client]: the HTTP transport, the current date, and the
      interpreter's limit on the digits of an integer literal.

    Layout: the model of the source; the definitions the statements use;
    the lemmas and the theorems of the claims (C1..C10); further properties
    of the code (X1..X20); their instances at concrete inputs. *)

From Stdlib Require Import ZArith Ascii String List Bool Lia.
From stdpp Require Import gmap strings list.

Coercion list_ascii_of_string : string >-> list.

(** ** Exceptions and results *)

Inductive exn :=
  | ValueError | OverflowError | TypeError | KeyError | IndexError
  | AttributeError | RequestException.

Inductive result (A : Type) :=
  | Ok (a : A)
  | Raise (e : exn).
Arguments Ok {A} a.
Arguments Raise {A} e.

#[global] Instance result_ret : MRet result := λ A a, Ok a.
#[global] Instance result_bind : MBind result := λ A B f r,
  match r with
  | Ok a => f a
  | Raise e => Raise e
  end.

(** [[f(x) for x in xs]]: evaluated left to right, the first exception
    aborts the comprehension. *)
Fixpoint comprehension {A B} (f : A → result B) (xs : list A) : result (list B) :=
  match xs with
  | [] => Ok []
  | x :: xs' => y ← f x; ys ← comprehension f xs'; Ok (y :: ys)
  end.

(** [for x in xs: acc = body(acc, x)], where the body may raise. *)
Fixpoint for_each {A S} (body : S → A → result S) (xs : list A) (acc : S) : result S :=
  match xs with
  | [] => Ok acc
  | x :: xs' => acc' ← body acc x; for_each body xs' acc'
  end.

(** ** Characters *)

Definition code (c : ascii) : N := N_of_ascii c.

(** [\d] and the digits of [int()] / [float()]. *)
Definition is_digit (c : ascii) : bool := (48 <=? code c)%N && (code c <=? 57)%N.

Definition digit_value (c : ascii) : Z := Z.of_N (code c) - 48.

(** The characters removed by [str.strip()]. *)
Definition is_space (c : ascii) : bool :=
  ((9 <=? code c)%N && (code c <=? 13)%N)
  || ((28 <=? code c)%N && (code c <=? 32)%N)
  || (code c =? 133)%N || (code c =? 160)%N.

(** The whitespace [int()] allows around a literal: the C whitespace and
    the non-ASCII whitespace; unlike [str.strip()], not U+001C..U+001F. *)
Definition is_int_space (c : ascii) : bool :=
  ((9 <=? code c)%N && (code c <=? 13)%N)
  || (code c =? 32)%N || (code c =? 133)%N || (code c =? 160)%N.

(** The regex class [[-\d.]]. *)
Definition is_number_char (c : ascii) : bool :=
  Ascii.eqb c "-" || is_digit c || Ascii.eqb c ".".

(** ** [str] methods *)

(** The longest prefix whose characters satisfy [p], and what follows it:
    a greedy character-class repetition. *)
Fixpoint span (p : ascii → bool) (s : list ascii) : list ascii * list ascii :=
  match s with
  | [] => ([], [])
  | c :: s' =>
      if p c then let '(run, rest) := span p s' in (c :: run, rest)
      else ([], s)
  end.

(** [s.startswith(lit)], returning what follows the literal. *)
Fixpoint strip_prefix (lit s : list ascii) : option (list ascii) :=
  match lit, s with
  | [], _ => Some s
  | a :: lit', c :: s' => if Ascii.eqb a c then strip_prefix lit' s' else None
  | _ :: _, [] => None
  end.

(** [s.split(sep)] for a one-character separator. *)
Fixpoint split (sep : ascii) (s : list ascii) : list (list ascii) :=
  match s with
  | [] => [[]]
  | c :: s' =>
      if Ascii.eqb c sep then [] :: split sep s'
      else match split sep s' with
           | w :: ws => (c :: w) :: ws
           | [] => [[c]]
           end
  end.

(** Leading characters of a class removed. *)
Fixpoint lstrip_by (p : ascii → bool) (s : list ascii) : list ascii :=
  match s with
  | c :: s' => if p c then lstrip_by p s' else s
  | [] => []
  end.

(** Leading and trailing characters of a class removed. *)
Definition strip_by (p : ascii → bool) (s : list ascii) : list ascii :=
  rev (lstrip_by p (rev (lstrip_by p s))).

(** [s.strip()]. *)
Definition strip (s : list ascii) : list ascii := strip_by is_space s.

(** [s.lower()] on the code points of the model: A..Z and the upper-case
    letters of U+00C0..U+00DE (all but the multiplication sign). *)
Definition lower_char (c : ascii) : ascii :=
  if ((65 <=? code c)%N && (code c <=? 90)%N)
     || ((192 <=? code c)%N && (code c <=? 222)%N && negb (code c =? 215)%N)
  then ascii_of_N (code c + 32) else c.

Definition lower (s : list ascii) : list ascii := map lower_char s.

(** ** Numbers *)

(** The value of a run of decimal digits, most significant first. *)
Fixpoint digits_value (acc : Z) (s : list ascii) : Z :=
  match s with
  | [] => acc
  | c :: s' => digits_value (10 * acc + digit_value c)%Z s'
  end.

(** The digit part of an integer literal: digits, with single underscores
    allowed between digits.  Returns the digits without the underscores. *)
Fixpoint int_digits (prev_underscore : bool) (s : list ascii) : option (list ascii) :=
  match s with
  | [] => if prev_underscore then None else Some []
  | c :: s' =>
      if is_digit c then cons c <$> int_digits false s'
      else if Ascii.eqb c "_" then
        if prev_underscore then None else int_digits true s'
      else None
  end.

(** An optional sign in front of a number. *)
Definition split_sign (s : list ascii) : bool * list ascii :=
  match s with
  | c :: s' =>
      if Ascii.eqb c "-" then (true, s')
      else if Ascii.eqb c "+" then (false, s')
      else (false, s)
  | [] => (false, [])
  end.

(** *** binary64 *)

(** [Finite neg m e] is (-1)^neg * m * 2^e.  Canonical form: a normal number
    has 2^52 <= m < 2^53 and -1074 <= e <= 971; a subnormal number or a zero
    has m < 2^52 and e = -1074. *)
Inductive pyfloat :=
  | Finite (neg : bool) (m : Z) (e : Z)
  | Infinity (neg : bool)
  | NaN.

(** The literal [0.0]. *)
Definition float_zero : pyfloat := Finite false 0 (-1074).

(** Unary minus. *)
Definition float_neg (f : pyfloat) : pyfloat :=
  match f with
  | Finite neg m e => Finite (negb neg) m e
  | Infinity neg => Infinity (negb neg)
  | NaN => NaN
  end.

(** floor (log2 (n / d)) for positive [n] and [d]. *)
Definition log2_ratio (n d : Z) : Z :=
  let g := (Z.log2 n - Z.log2 d)%Z in
  let ge := if (0 <=? g)%Z then (d * 2 ^ g <=? n)%Z else (d <=? n * 2 ^ (- g))%Z in
  if ge then g else (g - 1)%Z.

(** [num / den] rounded to the nearest integer, ties to even. *)
Definition round_half_even (num den : Z) : Z :=
  let q := (num / den)%Z in
  let r := (num mod den)%Z in
  if (2 * r <? den)%Z then q
  else if (den <? 2 * r)%Z then (q + 1)%Z
  else if Z.even q then q else (q + 1)%Z.

(** The binary64 number nearest to (-1)^neg * n / d (round to nearest, ties
    to even; overflow to infinity), for [0 <= n] and [0 < d]. *)
Definition binary64 (neg : bool) (n d : Z) : pyfloat :=
  if (n =? 0)%Z then Finite neg 0 (-1074)
  else
    let e := Z.max (log2_ratio n d - 52) (-1074) in
    let m := if (0 <=? e)%Z then round_half_even n (d * 2 ^ e)
             else round_half_even (n * 2 ^ (- e)) d in
    let '(m, e) := if (m =? 2 ^ 53)%Z then (2 ^ 52, e + 1)%Z else (m, e) in
    if (971 <? e)%Z then Infinity neg else Finite neg m e.

(** The unsigned part of a float literal, for the texts the field pattern
    can capture: digits with an optional fractional part ([12], [12.],
    [.5], [12.5]), as numerator and denominator. *)
Definition decimal_parts (body : list ascii) : option (Z * Z) :=
  let '(int_part, rest) := span is_digit body in
  match rest with
  | [] =>
      match int_part with
      | [] => None
      | _ => Some (digits_value 0 int_part, 1%Z)
      end
  | c :: rest' =>
      if Ascii.eqb c "." then
        let '(frac_part, junk) := span is_digit rest' in
        match junk, int_part ++ frac_part with
        | [], _ :: _ =>
            Some (digits_value 0 (int_part ++ frac_part),
                  (10 ^ Z.of_nat (length frac_part))%Z)
        | _, _ => None
        end
      else None
  end.

(** [float(s)]: an optional sign, then the digits.  Exponents, [inf] and
    [nan], underscores and surrounding whitespace need characters outside
    [[-\d.]], which the field pattern cannot capture, and are not modelled:
    on such text the model answers [ValueError]. *)
Definition py_float (s : list ascii) : result pyfloat :=
  let '(neg, body) := split_sign s in
  match decimal_parts body with
  | Some (n, d) => Ok (binary64 neg n d)
  | None => Raise ValueError
  end.

(** [int(f)] for a float: truncation toward zero. *)
Definition float_to_int (f : pyfloat) : result Z :=
  match f with
  | Finite neg m e =>
      let a := if (0 <=? e)%Z then (m * 2 ^ e)%Z else (m / 2 ^ (- e))%Z in
      Ok (if neg then (- a)%Z else a)
  | Infinity _ => Raise OverflowError
  | NaN => Raise ValueError
  end.

(** [bool(f)]. *)
Definition float_truthy (f : pyfloat) : bool :=
  match f with
  | Finite _ m _ => negb (m =? 0)%Z
  | _ => true
  end.

(** ** [datetime] *)

Record datetime := mk_datetime {
  year : Z; month : Z; day : Z; hour : Z; minute : Z; second : Z
}.

Definition is_leap (y : Z) : bool :=
  (y mod 4 =? 0)%Z && (negb (y mod 100 =? 0)%Z || (y mod 400 =? 0)%Z).

Definition days_in_month (y m : Z) : Z :=
  if (m =? 2)%Z then (if is_leap y then 29 else 28)%Z
  else if (m =? 4)%Z || (m =? 6)%Z || (m =? 9)%Z || (m =? 11)%Z then 30%Z
  else 31%Z.

Definition between (lo x hi : Z) : bool := (lo <=? x)%Z && (x <=? hi)%Z.

(** An argument that must fit a C [int]. *)
Definition fits_int (x : Z) : bool := between (- 2 ^ 31) x (2 ^ 31 - 1).

(** [datetime(year, month, day, hour, minute, second)]: [OverflowError] for
    an argument that does not fit a C int, [ValueError] for one out of
    range. *)
Definition py_datetime (y mo d h mi s : Z) : result datetime :=
  if negb (forallb fits_int [y; mo; d; h; mi; s]) then Raise OverflowError
  else if between 1 y 9999 && between 1 mo 12 && between 1 d (days_in_month y mo)
          && between 0 h 23 && between 0 mi 59 && between 0 s 59
  then Ok (mk_datetime y mo d h mi s)
  else Raise ValueError.

(** ** Run-time values *)

#[warnings="-register-all"]
Inductive pyvalue :=
  | PNone
  | PBool (b : bool)
  | PInt (z : Z)
  | PFloat (f : pyfloat)
  | PStr (s : list ascii)
  | PDateTime (t : datetime)
  | PList (l : list pyvalue)
  | PDict (d : gmap string pyvalue).

(** [bool(v)]. *)
Definition truthy (v : pyvalue) : bool :=
  match v with
  | PNone => false
  | PBool b => b
  | PInt z => negb (z =? 0)%Z
  | PFloat f => float_truthy f
  | PStr s => negb (bool_decide (s = []))
  | PDateTime _ => true
  | PList l => negb (bool_decide (length l = 0%nat))
  | PDict d => negb (bool_decide (size d = 0%nat))
  end.

(** [a or b]. *)
Definition py_or (a b : pyvalue) : pyvalue := if truthy a then a else b.

(** [d[k]]. *)
Definition getitem (d : gmap string pyvalue) (k : string) : result pyvalue :=
  match d !! k with
  | Some v => Ok v
  | None => Raise KeyError
  end.

(** [d.get(k, dflt)]. *)
Definition dict_get (d : gmap string pyvalue) (k : string) (dflt : pyvalue) : pyvalue :=
  default dflt (d !! k).

(** ** Data model ([models.py]) *)

Record SearchResult := mk_SearchResult {
  id_notation : Z;
  name : pyvalue;
  symbol : pyvalue;
  market : pyvalue;
  type : pyvalue;
  raw_data : pyvalue
}.

Record ChartPoint := mk_ChartPoint {
  date : pyvalue;
  open : pyvalue;
  high : pyvalue;
  low : pyvalue;
  close : pyvalue;
  volume : pyvalue;
  pctrel : pyvalue;
  decimals : pyvalue
}.

Record ChartData := mk_ChartData {
  chart_id_notation : Z;
  time_span : list ascii;
  points : list ChartPoint
}.

(** [xs[i]]. *)
Definition index {A} (xs : list A) (i : nat) : result A :=
  match xs !! i with
  | Some x => Ok x
  | None => Raise IndexError
  end.

(** [item.get(k)] on a decoded JSON value: only a dict has the method. *)
Definition item_get (item : pyvalue) (k : string) : result pyvalue :=
  match item with
  | PDict d => Ok (dict_get d k PNone)
  | _ => Raise AttributeError
  end.

(** [a or b] where the operands may raise; [b] is only evaluated when [a]
    is falsy. *)
Definition or_else (a b : result pyvalue) : result pyvalue :=
  x ← a; if truthy x then Ok x else b.

(** ** [ChartData.to_dataframe] ([models.py]) *)

(** The outcome of a method whose only exception is the [ImportError] it
    raises itself, with its message. *)
Inductive import_outcome (A : Type) :=
  | Returned (a : A)
  | ImportError (msg : list ascii).
Arguments Returned {A} a.
Arguments ImportError {A} msg.

(** One element of [data]: a dict literal, whose keys keep their order. *)
Definition point_row (p : ChartPoint) : list (string * pyvalue) :=
  [("date", date p); ("open", open p); ("high", high p); ("low", low p);
   ("close", close p); ("volume", volume p); ("pctrel", pctrel p)].

(** The list [data] built from the points. *)
Definition dataframe_rows (self : ChartData) : list (list (string * pyvalue)) :=
  map point_row (points self).

(** [to_dataframe].  [pandas] is what [import pandas as pd] gives: nothing
    when the library is not installed, else its [DataFrame] constructor,
    taken as never raising an [ImportError] of its own. *)
Definition to_dataframe {DataFrame : Type}
    (pandas : option (list (list (string * pyvalue)) → DataFrame))
    (self : ChartData) : import_outcome DataFrame :=
  match pandas with
  | Some pd_DataFrame => Returned (pd_DataFrame (dataframe_rows self))
  | None =>
      ImportError
        ("pandas es requerido para usar to_dataframe(). Inst"
           ++ [ascii_of_nat 225] ++ "lalo con: pip install pandas")
  end.

(** ** Regular expressions of the parser *)

(** [object_pattern] matched at the start of [s]: the literal
    [{date:new Date(], group 1 = one or more characters other than [)], the
    literal [)], group 2 = zero or more characters other than [}], the
    literal [}].  Returns the two groups and the text after the match.  Each
    repetition is greedy and is followed by the one character its class
    excludes, so the longest run is the only candidate. *)
Definition match_object (s : list ascii)
  : option (list ascii * list ascii * list ascii) :=
  s1 ← strip_prefix "{date:new Date(" s;
  let '(date_part, s2) := span (λ c, negb (Ascii.eqb c ")")) s1 in
  match date_part with
  | [] => None
  | _ :: _ =>
      s3 ← strip_prefix ")" s2;
      let '(rest_part, s4) := span (λ c, negb (Ascii.eqb c "}")) s3 in
      s5 ← strip_prefix "}" s4;
      Some (date_part, rest_part, s5)
  end.

(** [re.findall(object_pattern, text)]: the scan tries a match at every
    position from left to right and resumes after the end of a match;
    [skip] counts the characters of the last match still to be passed. *)
Fixpoint findall_from (skip : nat) (s : list ascii) : list (list ascii * list ascii) :=
  match s with
  | [] => []
  | _ :: s' =>
      match skip with
      | S k => findall_from k s'
      | O =>
          match match_object s with
          | Some (date_part, rest_part, after) =>
              (date_part, rest_part)
                :: findall_from (length s' - length after) s'
          | None => findall_from 0 s'
          end
      end
  end.

Definition findall_objects (text : list ascii) : list (list ascii * list ascii) :=
  findall_from 0 text.

(** [rf'{field}:([-\d.]+)'] matched at the start of [s]: the group. *)
Definition match_field (field s : list ascii) : option (list ascii) :=
  s1 ← strip_prefix (field ++ ":") s;
  match fst (span is_number_char s1) with
  | [] => None
  | value => Some value
  end.

(** [re.search(rf'{field}:([-\d.]+)', s)]: the group of the leftmost match. *)
Fixpoint re_search_field (field s : list ascii) : option (list ascii) :=
  match match_field field s with
  | Some value => Some value
  | None =>
      match s with
      | [] => None
      | _ :: s' => re_search_field field s'
      end
  end.

Section Client.

(** ** Environment of the client *)

(** The interpreter's limit on the number of digits [int()] converts
    ([sys.get_int_max_str_digits()], 4300 unless configured; 0 disables
    it).  It only applies to more than 640 digits. *)
Variable int_max_str_digits : nat.

(** [date.today()], as year, month and day. *)
Variable date_today : Z * Z * Z.

(** What the client reads from a response: [raise_for_status()],
    [json()] and [text]. *)
Record Response := mk_Response {
  raise_for_status : result ();
  json : result pyvalue;
  text : list ascii
}.

(** [self.session.get(url, params=params, timeout=timeout)]. *)
Variable session_get : list ascii → gmap string pyvalue → Z → result Response.

(** ** Conversions *)

(** [int(s)] for a string, base 10. *)
Definition py_int (s : list ascii) : result Z :=
  let '(neg, body) := split_sign (strip_by is_int_space s) in
  match body with
  | c :: _ =>
      if is_digit c then
        match int_digits false body with
        | Some ds =>
            if (640 <? length ds)%nat && (0 <? int_max_str_digits)%nat
               && (int_max_str_digits <? length ds)%nat
            then Raise ValueError
            else Ok (if neg then (- digits_value 0 ds)%Z else digits_value 0 ds)
        | None => Raise ValueError
        end
      else Raise ValueError
  | [] => Raise ValueError
  end.

(** [int(v)] for a run-time value. *)
Definition py_int_of (v : pyvalue) : result Z :=
  match v with
  | PInt z => Ok z
  | PBool b => Ok (if b then 1 else 0)%Z
  | PFloat f => float_to_int f
  | PStr s => py_int s
  | PNone | PDateTime _ | PList _ | PDict _ => Raise TypeError
  end.

(** ** [FinmarketClient] *)

Record FinmarketClient := mk_FinmarketClient { timeout : Z }.

Definition BASE_URL : list ascii := "https://bancobci.finmarketslive.cl/www".

(** *** [_parse_chart_response] *)

Definition fields : list string :=
  ["close"; "high"; "low"; "open"; "volume"; "pctrel"; "decimals"].

(** [f"{{date:new Date({date_part}){rest_part}}}"]. *)
Definition full_obj (date_part rest_part : list ascii) : list ascii :=
  "{date:new Date(" ++ date_part ++ ")" ++ rest_part ++ "}".

(** One round of the loop over the recognised field names. *)
Definition extract_field (full : list ascii)
    (point_data : gmap string pyvalue) (field : string)
  : result (gmap string pyvalue) :=
  match re_search_field field full with
  | Some value =>
      if bool_decide (field ∈ ["volume"; "decimals"]) then
        f ← py_float value; n ← float_to_int f;
        Ok (<[field := PInt n]> point_data)
      else
        f ← py_float value;
        Ok (<[field := PFloat f]> point_data)
  | None => Ok point_data
  end.

(** One round of the loop over the matched objects; [points] is the list
    built so far. *)
Definition parse_object (points : list ChartPoint)
    (obj : list ascii * list ascii) : result (list ChartPoint) :=
  let '(date_part, rest_part) := obj in
  let point_data : gmap string pyvalue := ∅ in
  date_values ← comprehension (λ x, py_int (strip x)) (split "," date_part);
  if (3 <=? length date_values)%nat then
    year ← index date_values 0;
    month ← index date_values 1;
    day ← index date_values 2;
    hour ← (if (3 <? length date_values)%nat then index date_values 3 else Ok 0%Z);
    minute ← (if (4 <? length date_values)%nat then index date_values 4 else Ok 0%Z);
    second ← (if (5 <? length date_values)%nat then index date_values 5 else Ok 0%Z);
    t ← py_datetime year (month + 1) day hour minute second;
    let point_data := <["date" := PDateTime t]> point_data in
    point_data ← for_each (extract_field (full_obj date_part rest_part))
                   fields point_data;
    if bool_decide ("date" ∈ dom point_data)
       && bool_decide ("close" ∈ dom point_data) then
      date ← getitem point_data "date";
      let open := dict_get point_data "open" (PFloat float_zero) in
      let high := dict_get point_data "high" (PFloat float_zero) in
      let low := dict_get point_data "low" (PFloat float_zero) in
      close ← getitem point_data "close";
      let volume := dict_get point_data "volume" (PInt 0) in
      let pctrel := dict_get point_data "pctrel" (PFloat float_zero) in
      let decimals := dict_get point_data "decimals" (PInt 2) in
      Ok (points ++ [mk_ChartPoint date open high low close volume pctrel decimals])
    else Ok points
  else Ok points.

(** The method does not read [self]. *)
Definition _parse_chart_response (text : list ascii) : result (list ChartPoint) :=
  let objects := findall_objects text in
  for_each parse_object objects [].

(** *** [search] *)

(** The [SearchResult] built from one element of the response. *)
Definition search_item (item : pyvalue) : result SearchResult :=
  id_value ← or_else (item_get item "ID_NOTATION")
               (or_else (item_get item "id_notation")
                  (or_else (item_get item "id") (Ok (PInt 0))));
  id_notation ← py_int_of id_value;
  name ← or_else (item_get item "NAME")
           (or_else (item_get item "name") (Ok (PStr "")));
  symbol ← or_else (item_get item "SYMBOL") (item_get item "symbol");
  market ← or_else (item_get item "MARKET") (item_get item "market");
  type ← or_else (item_get item "TYPE") (item_get item "type");
  Ok (mk_SearchResult id_notation name symbol market type item).

Definition search (self : FinmarketClient) (query market : list ascii)
  : result (list SearchResult) :=
  let url := BASE_URL ++ "/global/buscador.html" in
  let params : gmap string pyvalue :=
    <["MERCADO" := PStr market]> (<["SEARCH_VALUE" := PStr query]> ∅) in
  response ← session_get url params (timeout self);
  _ ← raise_for_status response;
  data ← json response;
  match data with
  | PList items =>
      for_each (λ results item, r ← search_item item; Ok (results ++ [r])) items []
  | _ => Ok []
  end.

(** *** [get_chart_data] *)

(** [str(b)] for a bool. *)
Definition str_bool (b : bool) : list ascii := if b then "True" else "False".

(** [n] in decimal, zero-padded to [width] digits. *)
Fixpoint zero_padded (width : nat) (n : Z) : list ascii :=
  match width with
  | O => []
  | S w => zero_padded w (n / 10) ++ [ascii_of_N (Z.to_N (48 + n mod 10))]
  end.

(** [d.strftime("%Y-%m-%d")] for a date whose year has four digits. *)
Definition strftime_Ymd (d : Z * Z * Z) : list ascii :=
  let '(y, m, dd) := d in
  zero_padded 4 y ++ "-" ++ zero_padded 2 m ++ "-" ++ zero_padded 2 dd.

(** The query parameters handed to the transport (the [params] dict at the
    call of [self.session.get]). *)
Definition chart_params (id_notation : Z) (time_span quality : list ascii)
    (volume : bool) : gmap string pyvalue :=
  let params : gmap string pyvalue :=
    <["VOLUME" := PStr (lower (str_bool volume))]>
      (<["QUALITY" := PStr quality]>
         (<["ID_NOTATION" := PInt id_notation]> ∅)) in
  if bool_decide (time_span = ("MAX" : list ascii)) then
    <["DATEFIN" := PStr (strftime_Ymd date_today)]>
      (<["DATEINI" := PStr "1900-01-01"]> params)
  else
    <["TIME_SPAN" := PStr time_span]> params.

Definition get_chart_data (self : FinmarketClient) (id_notation : Z)
    (time_span quality : list ascii) (volume : bool) : result ChartData :=
  let url := BASE_URL ++ "/chart/datachart.html" in
  let params := chart_params id_notation time_span quality volume in
  response ← session_get url params (timeout self);
  _ ← raise_for_status response;
  points ← _parse_chart_response (text response);
  Ok (mk_ChartData id_notation time_span points).

Definition get_intraday (self : FinmarketClient) (id_notation : Z) :=
  get_chart_data self id_notation "1D" "RLT" false.

Definition get_weekly (self : FinmarketClient) (id_notation : Z) :=
  get_chart_data self id_notation "5D" "RLT" false.

Definition get_monthly (self : FinmarketClient) (id_notation : Z) :=
  get_chart_data self id_notation "1M" "RLT" false.

Definition get_yearly (self : FinmarketClient) (id_notation : Z) :=
  get_chart_data self id_notation "1Y" "RLT" false.

(** * Definitions used in the statements *)

(** ** Character classes and texts *)

(** What follows a greedy run does not belong to the class. *)
Definition stops (p : ascii → bool) (s : list ascii) : bool :=
  match s with
  | [] => true
  | c :: _ => negb (p c)
  end.

(** The classes of the object pattern, and the characters that cannot
    start a match of it. *)
Definition not_rparen (c : ascii) : bool := negb (Ascii.eqb c ")").
Definition not_rbrace (c : ascii) : bool := negb (Ascii.eqb c "}").
Definition not_lbrace (c : ascii) : bool := negb (Ascii.eqb c "{").

(** ** The steps of the loop over the matched objects *)

(** [[int(x.strip()) for x in date_part.split(',')]]. *)
Definition date_values (date_part : list ascii) : result (list Z) :=
  comprehension (λ x, py_int (strip x)) (split "," date_part).

(** The timestamp built from at least three date values. *)
Definition timestamp (vs : list Z) : result datetime :=
  match vs with
  | y :: mo :: dd :: tl =>
      py_datetime y (mo + 1) dd (nth 0 tl 0%Z) (nth 1 tl 0%Z) (nth 2 tl 0%Z)
  | _ => Raise IndexError
  end.

(** The conversion applied to the text captured for a field. *)
Definition convert_field (field : string) (value : list ascii) : result pyvalue :=
  f ← py_float value;
  if bool_decide (field ∈ ["volume"; "decimals"]) then
    n ← float_to_int f; Ok (PInt n)
  else Ok (PFloat f).

(** What the field loop finds for one field: nothing, a value, or an
    exception. *)
Definition field_value (full : list ascii) (field : string)
  : result (option pyvalue) :=
  match re_search_field field full with
  | Some value => y ← convert_field field value; Ok (Some y)
  | None => Ok None
  end.

(** The point appended for a timestamp and the seven field results. *)
Definition point_of (t : datetime)
    (o_close o_high o_low o_open o_volume o_pctrel o_decimals : option pyvalue)
  : list ChartPoint :=
  match o_close with
  | Some c =>
      [mk_ChartPoint (PDateTime t)
         (default (PFloat float_zero) o_open)
         (default (PFloat float_zero) o_high)
         (default (PFloat float_zero) o_low)
         c
         (default (PInt 0) o_volume)
         (default (PFloat float_zero) o_pctrel)
         (default (PInt 2) o_decimals)]
  | None => []
  end.

(** The point assembled from the dictionary of extracted values. *)
Definition assemble (pd : gmap string pyvalue) : list ChartPoint :=
  match pd !! "date", pd !! "close" with
  | Some dt, Some c =>
      [mk_ChartPoint dt
         (dict_get pd "open" (PFloat float_zero))
         (dict_get pd "high" (PFloat float_zero))
         (dict_get pd "low" (PFloat float_zero))
         c
         (dict_get pd "volume" (PInt 0))
         (dict_get pd "pctrel" (PFloat float_zero))
         (dict_get pd "decimals" (PInt 2))]
  | _, _ => []
  end.

(** Everything one matched object contributes, as a function of the
    object alone. *)
Definition object_points (date_part rest_part : list ascii)
  : result (list ChartPoint) :=
  vs ← date_values date_part;
  if (3 <=? length vs)%nat then
    t ← timestamp vs;
    let full := full_obj date_part rest_part in
    o_close ← field_value full "close";
    o_high ← field_value full "high";
    o_low ← field_value full "low";
    o_open ← field_value full "open";
    o_volume ← field_value full "volume";
    o_pctrel ← field_value full "pctrel";
    o_decimals ← field_value full "decimals";
    Ok (point_of t o_close o_high o_low o_open o_volume o_pctrel o_decimals)
  else Ok [].

(** [point_data[k] = y] when the field was found. *)
Definition update_opt (k : string) (o : option pyvalue)
    (m : gmap string pyvalue) : gmap string pyvalue :=
  match o with
  | Some y => <[k := y]> m
  | None => m
  end.

(** ** Texts in which no field name can start *)

(** The letters a..z; every recognised field name starts with one. *)
Definition is_lower (c : ascii) : bool := (97 <=? code c)%N && (code c <=? 122)%N.

Definition no_lower (s : list ascii) : bool := forallb (λ c, negb (is_lower c)) s.

(** The characters an integer literal can be made of. *)
Definition is_int_char (c : ascii) : bool :=
  is_space c || is_digit c || Ascii.eqb c "+" || Ascii.eqb c "-" || Ascii.eqb c "_".

(** The characters of a date part whose components are integer literals. *)
Definition is_date_char (c : ascii) : Prop := is_int_char c = true ∨ c = ","%char.

(** ** Fragments that convert, fragments that contribute *)

Definition is_ok {A} (r : result A) : bool :=
  match r with
  | Ok _ => true
  | Raise _ => false
  end.

(** Every conversion the loop applies to a matched object succeeds: the
    date components are integer literals and, when there are three or
    more, they form a valid timestamp and the text captured for each
    recognised field is a number (a finite one for [volume] and
    [decimals]). *)
Definition converts (obj : list ascii * list ascii) : bool :=
  match date_values obj.1 with
  | Ok vs =>
      (length vs <? 3)%nat
      || (is_ok (timestamp vs)
          && forallb (λ f : string, is_ok (field_value (full_obj obj.1 obj.2) f))
               fields)
  | Raise _ => false
  end.

(** The object has three or more date components and a close value is
    found in it. *)
Definition contributes (obj : list ascii * list ascii) : bool :=
  match date_values obj.1 with
  | Ok vs =>
      (3 <=? length vs)%nat
      && bool_decide (is_Some (re_search_field "close" (full_obj obj.1 obj.2)))
  | Raise _ => false
  end.

(** ** Order of the fragments *)

(** The objects occur in the text one after the other, without overlap. *)
Fixpoint in_source_order (objs : list (list ascii * list ascii))
    (text : list ascii) : Prop :=
  match objs with
  | [] => True
  | (d, r) :: objs' =>
      ∃ gap rest, text = gap ++ full_obj d r ++ rest ∧ in_source_order objs' rest
  end.

(** A text made of fragments, each preceded by a gap, and a last gap. *)
Fixpoint render (chunks : list (list ascii * (list ascii * list ascii)))
    (last : list ascii) : list ascii :=
  match chunks with
  | [] => last
  | (gap, (d, r)) :: chunks' => gap ++ full_obj d r ++ render chunks' last
  end.

(** The gap holds no opening brace and the fragment can be matched. *)
Definition well_formed_chunk
    (chunk : list ascii * (list ascii * list ascii)) : bool :=
  forallb not_lbrace chunk.1
  && negb (bool_decide (chunk.2.1 = []))
  && forallb not_rparen chunk.2.1
  && forallb not_rbrace chunk.2.2.

(** ** Fields of a point *)

(** The float is +0.0, positive, or +inf. *)
Definition float_nonneg (x : pyfloat) : Prop :=
  match x with
  | Finite neg m _ => neg = false ∧ (0 <= m)%Z
  | Infinity neg => neg = false
  | NaN => False
  end.

(** The attribute of a point that holds a recognised field. *)
Definition point_field (p : ChartPoint) (f : string) : pyvalue :=
  if bool_decide (f = "close") then close p
  else if bool_decide (f = "high") then high p
  else if bool_decide (f = "low") then low p
  else if bool_decide (f = "open") then open p
  else if bool_decide (f = "volume") then volume p
  else if bool_decide (f = "pctrel") then pctrel p
  else decimals p.

(** The default of a field that is absent from the fragment. *)
Definition field_default (f : string) : pyvalue :=
  if bool_decide (f = "volume") then PInt 0
  else if bool_decide (f = "decimals") then PInt 2
  else PFloat float_zero.


(** ** Candidate keys of a search record *)

(** The candidate keys read in priority order, as the spec words it: the
    value of the first key the record holds. *)
Fixpoint first_present (keys : list string) (d : gmap string pyvalue)
  : option pyvalue :=
  match keys with
  | [] => None
  | k :: keys' =>
      match d !! k with
      | Some v => Some v
      | None => first_present keys' d
      end
  end.

(** The candidate keys read in priority order, as the code does it: the
    value of the first key the record holds with a truthy value. *)
Fixpoint first_truthy (keys : list string) (d : gmap string pyvalue)
  : option pyvalue :=
  match keys with
  | [] => None
  | k :: keys' =>
      match d !! k with
      | Some v => if truthy v then Some v else first_truthy keys' d
      | None => first_truthy keys' d
      end
  end.

(** The first truthy candidate, or a default. *)
Definition resolve (keys : list string) (dflt : pyvalue)
    (d : gmap string pyvalue) : pyvalue :=
  default dflt (first_truthy keys d).

(** The [SearchResult] of a record, by ordered candidate keys. *)
Definition search_result_of (d : gmap string pyvalue) : result SearchResult :=
  id ← py_int_of (resolve ["ID_NOTATION"; "id_notation"; "id"] (PInt 0) d);
  Ok (mk_SearchResult id
        (resolve ["NAME"; "name"] (PStr "") d)
        (resolve ["SYMBOL"; "symbol"] (dict_get d "symbol" PNone) d)
        (resolve ["MARKET"; "market"] (dict_get d "market" PNone) d)
        (resolve ["TYPE"; "type"] (dict_get d "type" PNone) d)
        (PDict d)).

(** The mapping of one element of the response. *)
Definition map_record (item : pyvalue) : result SearchResult :=
  match item with
  | PDict d => search_result_of d
  | _ => Raise AttributeError
  end.

(** ** Time spans *)

(** The values of the [TimeSpan] literal type. *)
Definition TimeSpan : list (list ascii) :=
  [ "1D" : list ascii; "5D" : list ascii; "1M" : list ascii;
    "3M" : list ascii; "6M" : list ascii; "1Y" : list ascii;
    "3Y" : list ascii; "5Y" : list ascii; "10Y" : list ascii;
    "MAX" : list ascii ].

(** ** Export to a table *)

(** The columns of the exported table, in order. *)
Definition columns : list string :=
  ["date"; "open"; "high"; "low"; "close"; "volume"; "pctrel"].

(** Two points that differ at most in [decimals]. *)
Definition same_but_decimals (p q : ChartPoint) : Prop :=
  date p = date q ∧ open p = open q ∧ high p = high q ∧ low p = low q
  ∧ close p = close q ∧ volume p = volume q ∧ pctrel p = pctrel q.

(** ** Shape of the matches and of the points *)

(** What the object pattern can capture: a date part that is not empty and
    holds no closing parenthesis, a rest part without closing brace. *)
Definition captured (obj : list ascii * list ascii) : Prop :=
  obj.1 ≠ [] ∧ forallb not_rparen obj.1 = true ∧ forallb not_rbrace obj.2 = true.

(** A timestamp within the ranges of [datetime]. *)
Definition valid_datetime (t : datetime) : bool :=
  between 1 (year t) 9999 && between 1 (month t) 12
  && between 1 (day t) (days_in_month (year t) (month t))
  && between 0 (hour t) 23 && between 0 (minute t) 59
  && between 0 (second t) 59.

(** Date components of the source, month counted from 0, that make a
    timestamp. *)
Definition valid_date_components (Y M D h mi s : Z) : bool :=
  between 1 Y 9999 && between 0 M 11
  && between 1 D (days_in_month Y (M + 1))
  && between 0 h 23 && between 0 mi 59 && between 0 s 59.

(** A float that is a number. *)
Definition is_number (x : pyfloat) : Prop := x ≠ NaN.

(** ** Date parts written component by component *)

(** [sep.join(xs)] for a one-character separator. *)
Fixpoint join (sep : ascii) (xs : list (list ascii)) : list ascii :=
  match xs with
  | [] => []
  | x :: xs' =>
      match xs' with
      | [] => x
      | _ :: _ => x ++ sep :: join sep xs'
      end
  end.

(** A component between two runs of characters. *)
Definition padded (c : list ascii * list ascii * list ascii) : list ascii :=
  c.1.1 ++ c.1.2 ++ c.2.

(** The component of [padded] holds no comma, and what surrounds it is
    whitespace. *)
Definition whitespace_padded (c : list ascii * list ascii * list ascii) : bool :=
  forallb is_space c.1.1 && forallb is_space c.2
  && forallb (λ a, negb (Ascii.eqb a ",")) c.1.2.

(** The sign in front of a number text. *)
Definition sign_text (neg : bool) : list ascii := if neg then "-" else "".

(** The integer with a sign. *)
Definition signed (neg : bool) (n : Z) : Z := if neg then (- n)%Z else n.

(** ** Requests *)

(** The keys [get_chart_data] can send. *)
Definition chart_keys : list string :=
  ["ID_NOTATION"; "QUALITY"; "VOLUME"; "TIME_SPAN"; "DATEINI"; "DATEFIN"].

(** The request of a convenience method: real-time quality, no volume,
    the time span of the method and no date. *)
Definition convenience_params (id_notation : Z) (span : list ascii)
  : gmap string pyvalue :=
  <["TIME_SPAN" := PStr span]>
    (<["VOLUME" := PStr "false"]>
       (<["QUALITY" := PStr "RLT"]> (<["ID_NOTATION" := PInt id_notation]> ∅))).

(** The exceptions of mapping one element of a search response. *)
Definition record_exception (item : pyvalue) (e : exn) : Prop :=
  match item with
  | PDict _ => e = TypeError ∨ e = ValueError ∨ e = OverflowError
  | _ => e = AttributeError
  end.

(** ** Concrete inputs *)

(** A transport that answers every request with the same JSON value. *)
Definition answering (data : pyvalue)
  : list ascii → gmap string pyvalue → Z → result Response :=
  λ _ _ _, Ok (mk_Response (Ok ()) (Ok data) []).

(** The parameters hold the text [s] under the key [k]. *)
Definition holds_str (params : gmap string pyvalue) (k : string)
    (s : list ascii) : bool :=
  match params !! k with
  | Some (PStr s') => bool_decide (s' = s)
  | _ => false
  end.

(** The parameters hold nothing under the key [k]. *)
Definition lacks (params : gmap string pyvalue) (k : string) : bool :=
  match params !! k with
  | None => true
  | Some _ => false
  end.

(** The parameters of a request for the whole history on 3 November 2026,
    and of a request for a relative time span. *)
Definition expects_max (params : gmap string pyvalue) : bool :=
  holds_str params "DATEINI" "1900-01-01"
  && holds_str params "DATEFIN" "2026-11-03"
  && lacks params "TIME_SPAN".

Definition expects_span (span : list ascii) (params : gmap string pyvalue)
  : bool :=
  holds_str params "TIME_SPAN" span
  && lacks params "DATEINI" && lacks params "DATEFIN".

(** A transport that answers a request with a text when the request goes
    to [path] under the base address and its parameters pass [check], and
    fails on any other request. *)
Definition answering_if (path : list ascii)
    (check : gmap string pyvalue → bool) (body : list ascii)
  : list ascii → gmap string pyvalue → Z → result Response :=
  λ url params _,
    if bool_decide (url = "https://bancobci.finmarketslive.cl/www" ++ path)
       && check params
    then Ok (mk_Response (Ok ()) (Raise ValueError) body)
    else Raise RequestException.

(** A transport that answers every request with the same text, which is
    no JSON. *)
Definition answering_text (body : list ascii)
  : list ascii → gmap string pyvalue → Z → result Response :=
  λ _ _ _, Ok (mk_Response (Ok ()) (Raise ValueError) body).

(** Response texts: the two points of the test of several points, the
    fragment of the test of negative values, and a text with one complete
    fragment, one with two date components and one without close. *)
Definition response_two_points : list ascii :=
  "[{date:new Date(2025, 0, 21, 9, 0, 0),close:0.24,high:0.24,low:0.24,open:0.24,volume:12701745,pctrel:0.00,decimals:2}, {date:new Date(2025, 0, 22, 9, 0, 0),close:0.25,high:0.25,low:0.24,open:0.24,volume:28054091,pctrel:4.17,decimals:2}]".

Definition response_negative_pctrel : list ascii :=
  "[{date:new Date(2025, 0, 21, 9, 0, 0),close:0.24,high:0.25,low:0.23,open:0.24,volume:12701745,pctrel:-0.83,decimals:2}]".

Definition response_mixed : list ascii :=
  "[{date:new Date(2025, 0, 21, 9, 0, 0),close:0.24}, {date:new Date(2025, 0),close:1}, {date:new Date(2025, 0, 22),high:0.25}]".

(** The floats of the literals that occur in the examples. *)
Definition f_0_24 : pyfloat := Finite false 8646911284551352 (-55).
Definition f_0_25 : pyfloat := Finite false 4503599627370496 (-54).
Definition f_0_30 : pyfloat := Finite false 5404319552844595 (-54).
Definition f_0_83 : pyfloat := Finite false 7475975381435023 (-53).

(** The records of the two search tests. *)
Definition record_upper : pyvalue :=
  PDict (<["ID_NOTATION" := PInt 3969]> (<["NAME" := PStr "IPSA"]>
        (<["SYMBOL" := PStr "IPSA"]> (<["MARKET" := PStr "Chile"]>
        (<["TYPE" := PStr "Index"]> ∅))))).

Definition record_lower : pyvalue :=
  PDict (<["id_notation" := PInt 4039]> (<["name" := PStr "ASSD"]>
        (<["symbol" := PStr "ASSD"]> (<["market" := PStr "Chile"]>
        (<["type" := PStr "Stock"]> ∅))))).

(** A record whose upper-case identifier and name are present but falsy. *)
Definition record_falsy : gmap string pyvalue :=
  <["ID_NOTATION" := PInt 0]> (<["id_notation" := PInt 5]>
  (<["NAME" := PStr ""]> (<["name" := PStr "ASSD"]> ∅))).

(** The digits of 10^309, an integer past the largest float. *)
Definition digits_10_309 : list ascii := "1"%char :: repeat "0"%char 309.

(** A point with a close only, on 21 January 2025 at 9:00. *)
Definition point_close_only : ChartPoint :=
  mk_ChartPoint (PDateTime (mk_datetime 2025 1 21 9 0 0))
    (PFloat float_zero) (PFloat float_zero) (PFloat float_zero)
    (PFloat f_0_24) (PInt 0) (PFloat float_zero) (PInt 2).

(** * Properties *)

#[local] Arguments Ascii.eqb : simpl never.

(** ** Results *)

Lemma bind_Ok {A B} (a : A) (f : A → result B) : (Ok a ≫= f) = f a.
Proof. reflexivity. Qed.

Lemma bind_Raise {A B} (e : exn) (f : A → result B) : (Raise e ≫= f) = Raise e.
Proof. reflexivity. Qed.

Lemma bind_Ok_inv {A B} (r : result A) (f : A → result B) (b : B) :
  r ≫= f = Ok b → ∃ a, r = Ok a ∧ f a = Ok b.
Proof. destruct r as [a|]; [|done]. rewrite bind_Ok. by exists a. Qed.

(** ** Text primitives *)

Lemma strip_prefix_app (lit s : list ascii) : strip_prefix lit (lit ++ s) = Some s.
Proof.
  induction lit as [|a lit IH]; simpl.
  - by destruct s.
  - by rewrite Ascii.eqb_refl.
Qed.

Lemma strip_prefix_Some (lit s t : list ascii) :
  strip_prefix lit s = Some t → s = lit ++ t.
Proof.
  revert s; induction lit as [|a lit IH]; intros s H.
  - destruct s; simpl in H; by simplify_eq.
  - destruct s as [|c s]; simpl in H; [done|].
    destruct (Ascii.eqb a c) eqn:E; [|done].
    apply Ascii.eqb_eq in E as ->. simpl. f_equal. by apply IH.
Qed.

Lemma span_spec (p : ascii → bool) (s run rest : list ascii) :
  span p s = (run, rest) →
  s = run ++ rest ∧ forallb p run = true ∧ stops p rest = true.
Proof.
  revert run rest; induction s as [|c s IH]; intros run rest H; simpl in H.
  - by simplify_eq.
  - destruct (p c) eqn:E.
    + destruct (span p s) as [run' rest'] eqn:Hs. simplify_eq.
      destruct (IH _ _ eq_refl) as (-> & ? & ?).
      simpl. rewrite E. done.
    + simplify_eq. simpl. by rewrite E.
Qed.

Lemma span_app (p : ascii → bool) (run rest : list ascii) :
  forallb p run = true → stops p rest = true →
  span p (run ++ rest) = (run, rest).
Proof.
  intros Hrun Hrest. induction run as [|c run IH]; simpl in *.
  - destruct rest as [|c rest]; [done|]. simpl in *.
    apply negb_true_iff in Hrest. by rewrite Hrest.
  - apply andb_prop in Hrun as [-> Hrun]. by rewrite IH.
Qed.

(** ** The object pattern *)

(** A well-formed fragment, followed by anything, is matched as a whole. *)
Lemma match_object_full_obj (d r after : list ascii) :
  d ≠ [] → forallb not_rparen d = true → forallb not_rbrace r = true →
  match_object (full_obj d r ++ after) = Some (d, r, after).
Proof.
  intros Hd Hp Hb. unfold match_object, full_obj.
  rewrite <- !app_assoc, strip_prefix_app. cbn [mbind option_bind].
  change (λ c : ascii, negb (Ascii.eqb c ")")) with not_rparen.
  change (λ c : ascii, negb (Ascii.eqb c "}")) with not_rbrace.
  rewrite (span_app not_rparen d); [|done|done].
  destruct d as [|c d]; [done|].
  rewrite strip_prefix_app. cbn [mbind option_bind].
  rewrite (span_app not_rbrace r); [|done|done].
  by rewrite strip_prefix_app.
Qed.

(** Conversely, a match is a fragment. *)
Lemma match_object_Some (s d r after : list ascii) :
  match_object s = Some (d, r, after) →
  s = full_obj d r ++ after ∧ d ≠ []
  ∧ forallb not_rparen d = true ∧ forallb not_rbrace r = true.
Proof.
  unfold match_object. intros H.
  destruct (strip_prefix _ s) as [s1|] eqn:Hpre; cbn [mbind option_bind] in H;
    [|done].
  apply strip_prefix_Some in Hpre as ->.
  destruct (span _ s1) as [d' s2] eqn:Hd.
  apply span_spec in Hd as (-> & Hd & _).
  destruct d' as [|c d']; [done|].
  destruct (strip_prefix _ s2) as [s3|] eqn:Hs2; cbn [mbind option_bind] in H;
    [|done].
  apply strip_prefix_Some in Hs2 as ->.
  destruct (span _ s3) as [r' s4] eqn:Hr.
  apply span_spec in Hr as (-> & Hr & _).
  destruct (strip_prefix _ s4) as [s5|] eqn:Hs4; cbn [mbind option_bind] in H;
    [|done].
  apply strip_prefix_Some in Hs4 as ->. simplify_eq.
  split; [|done].
  unfold full_obj. by rewrite <- !app_assoc.
Qed.

Lemma match_object_not_lbrace (c : ascii) (s : list ascii) :
  not_lbrace c = true → match_object (c :: s) = None.
Proof.
  intros H. unfold match_object. simpl.
  unfold not_lbrace in H. apply negb_true_iff in H.
  rewrite Ascii.eqb_sym in H. by rewrite H.
Qed.

(** ** The scan *)

Lemma findall_from_skip (a b : list ascii) :
  findall_from (length a) (a ++ b) = findall_from 0 b.
Proof. induction a as [|c a IH]; [done|]. simpl. exact IH. Qed.

Lemma findall_from_gap (g s : list ascii) :
  forallb not_lbrace g = true → findall_from 0 (g ++ s) = findall_from 0 s.
Proof.
  intros H. induction g as [|c g IH]; [done|]. simpl in H.
  apply andb_prop in H as [Hc Hg].
  change ((c :: g) ++ s) with (c :: (g ++ s)).
  simpl. rewrite match_object_not_lbrace; [|done]. by apply IH.
Qed.

Lemma findall_from_full_obj (d r after : list ascii) :
  d ≠ [] → forallb not_rparen d = true → forallb not_rbrace r = true →
  findall_from 0 (full_obj d r ++ after) = (d, r) :: findall_from 0 after.
Proof.
  intros Hd Hp Hb.
  pose proof (match_object_full_obj d r after Hd Hp Hb) as Hm.
  remember (full_obj d r) as f eqn:Hf.
  destruct f as [|c f]; [by unfold full_obj in Hf|].
  change ((c :: f) ++ after) with (c :: (f ++ after)) in *.
  simpl findall_from. rewrite Hm. f_equal.
  rewrite length_app.
  replace (length f + length after - length after)%nat with (length f) by lia.
  apply findall_from_skip.
Qed.

(** ** The loop over the matched objects *)

Lemma extract_field_eq (full : list ascii) (pd : gmap string pyvalue) (f : string) :
  extract_field full pd f =
  (o ← field_value full f;
   Ok (match o with Some y => <[f := y]> pd | None => pd end)).
Proof.
  unfold extract_field, field_value, convert_field.
  destruct (re_search_field f full) as [v|]; [|done].
  destruct (bool_decide _); destruct (py_float v) as [x|]; simpl; try done.
  by destruct (float_to_int x).
Qed.

Lemma parse_object_eq (pts : list ChartPoint) (d r : list ascii) :
  parse_object pts (d, r) =
  (vs ← date_values d;
   if (3 <=? length vs)%nat then
     t ← timestamp vs;
     pd ← for_each (extract_field (full_obj d r)) fields
            (<["date" := PDateTime t]> ∅);
     Ok (pts ++ assemble pd)
   else Ok pts).
Proof.
  unfold parse_object, date_values.
  generalize (for_each (extract_field (full_obj d r)) fields). intros loop.
  destruct (comprehension _ _) as [vs|e]; simpl; [|done].
  destruct vs as [|y [|mo [|dd tl]]]; try done.
  destruct tl as [|h [|mi [|s tl]]]; simpl;
    (destruct (py_datetime _ _ _ _ _ _) as [t|e]; simpl; [|done]);
    (destruct (loop _) as [pd|e]; simpl; [|done]);
    unfold assemble, getitem;
    destruct (pd !! "date") as [dt|] eqn:Hd;
    destruct (pd !! "close") as [c|] eqn:Hc;
    repeat match goal with
      | |- context [bool_decide (?k ∈ dom pd)] =>
          first
            [ rewrite (bool_decide_eq_true_2 (k ∈ dom pd))
                by (apply elem_of_dom; eauto)
            | rewrite (bool_decide_eq_false_2 (k ∈ dom pd))
                by (rewrite elem_of_dom; intros [? ?]; congruence) ]
      end;
    simpl; rewrite ?Hd, ?Hc; simpl; rewrite ?app_nil_r; done.
Qed.

Lemma lookup_update_opt_eq k o (m : gmap string pyvalue) :
  update_opt k o m !! k = match o with Some y => Some y | None => m !! k end.
Proof. destruct o; [apply lookup_insert_eq|done]. Qed.

Lemma lookup_update_opt_ne k k' o (m : gmap string pyvalue) :
  k ≠ k' → update_opt k o m !! k' = m !! k'.
Proof. intros. destruct o; [by apply lookup_insert_ne|done]. Qed.

Lemma parse_object_points (pts : list ChartPoint) (d r : list ascii) :
  parse_object pts (d, r) = (c ← object_points d r; Ok (pts ++ c)).
Proof.
  rewrite parse_object_eq. unfold object_points.
  destruct (date_values d) as [vs|e]; rewrite ?bind_Ok, ?bind_Raise; [|done].
  destruct (3 <=? length vs)%nat; rewrite ?bind_Ok; [|by rewrite app_nil_r].
  destruct (timestamp vs) as [t|e]; rewrite ?bind_Ok, ?bind_Raise; [|done].
  unfold fields. cbn [for_each]. cbv zeta.
  set (full := full_obj d r).
  rewrite !extract_field_eq.
  destruct (field_value full "close") as [oc|e]; rewrite ?bind_Ok, ?bind_Raise; [|done].
  rewrite !extract_field_eq.
  destruct (field_value full "high") as [oh|e]; rewrite ?bind_Ok, ?bind_Raise; [|done].
  rewrite !extract_field_eq.
  destruct (field_value full "low") as [ol|e]; rewrite ?bind_Ok, ?bind_Raise; [|done].
  rewrite !extract_field_eq.
  destruct (field_value full "open") as [oo|e]; rewrite ?bind_Ok, ?bind_Raise; [|done].
  rewrite !extract_field_eq.
  destruct (field_value full "volume") as [ov|e]; rewrite ?bind_Ok, ?bind_Raise; [|done].
  rewrite !extract_field_eq.
  destruct (field_value full "pctrel") as [op|e]; rewrite ?bind_Ok, ?bind_Raise; [|done].
  rewrite !extract_field_eq.
  destruct (field_value full "decimals") as [od|e]; rewrite ?bind_Ok, ?bind_Raise; [|done].
  do 2 f_equal.
  repeat match goal with
    | |- context [match ?o with Some y => <[?k := y]> ?m | None => ?m end] =>
        change (match o with Some y => <[k := y]> m | None => m end)
          with (update_opt k o m)
    end.
  unfold assemble, dict_get, point_of.
  rewrite ?lookup_update_opt_eq, ?lookup_update_opt_ne by done.
  rewrite ?lookup_insert_eq, ?lookup_insert_ne, ?lookup_empty by done.
  destruct oc, oh, ol, oo, ov, op, od; reflexivity.
Qed.

Lemma for_each_parse_object (objs : list (list ascii * list ascii))
    (pts : list ChartPoint) :
  for_each parse_object objs pts =
  (cs ← comprehension (λ o, object_points o.1 o.2) objs; Ok (pts ++ concat cs)).
Proof.
  revert pts. induction objs as [|[d r] objs IH]; intros pts.
  - simpl. by rewrite app_nil_r.
  - cbn [for_each comprehension]. rewrite parse_object_points. cbn [fst snd].
    destruct (object_points d r) as [c|e]; rewrite ?bind_Ok, ?bind_Raise; [|done].
    rewrite IH.
    destruct (comprehension _ objs) as [cs|e]; rewrite ?bind_Ok, ?bind_Raise; [|done].
    simpl. by rewrite app_assoc.
Qed.

Lemma parse_chart_response_eq (text : list ascii) :
  _parse_chart_response text =
  (cs ← comprehension (λ o, object_points o.1 o.2) (findall_objects text);
   Ok (concat cs)).
Proof. unfold _parse_chart_response. by rewrite for_each_parse_object. Qed.

(** ** Characters of a date part that converts *)

Lemma int_char_not_special (c : ascii) :
  is_int_char c = true →
  is_lower c = false ∧ not_rparen c = true ∧ not_rbrace c = true.
Proof. destruct c as [[] [] [] [] [] [] [] []]; by vm_compute. Qed.

Lemma lstrip_by_spec (p : ascii → bool) (s : list ascii) :
  ∃ ws, s = ws ++ lstrip_by p s ∧ Forall (λ c, p c = true) ws.
Proof.
  induction s as [|c s (ws & IH & Hws)]; [by exists []|]. simpl.
  destruct (p c) eqn:E.
  - exists (c :: ws). split; [by rewrite IH at 1|by constructor].
  - by exists [].
Qed.

Lemma strip_by_spec (p : ascii → bool) (s : list ascii) :
  ∃ ws1 ws2, s = ws1 ++ strip_by p s ++ ws2
    ∧ Forall (λ c, p c = true) ws1 ∧ Forall (λ c, p c = true) ws2.
Proof.
  destruct (lstrip_by_spec p s) as (ws1 & H1 & Hws1).
  destruct (lstrip_by_spec p (rev (lstrip_by p s))) as (ws2 & H2 & Hws2).
  exists ws1, (rev ws2). split_and!; [|done|].
  - rewrite H1 at 1. f_equal. unfold strip_by.
    rewrite <- rev_app_distr, <- H2. by rewrite rev_involutive.
  - apply Forall_forall. intros c Hc. apply list_elem_of_In in Hc.
    apply in_rev in Hc. apply list_elem_of_In in Hc.
    by eapply Forall_forall in Hws2.
Qed.

Lemma strip_spec (s : list ascii) :
  ∃ ws1 ws2, s = ws1 ++ strip s ++ ws2
    ∧ Forall (λ c, is_space c = true) ws1 ∧ Forall (λ c, is_space c = true) ws2.
Proof. apply strip_by_spec. Qed.

Lemma int_space_is_space (c : ascii) : is_int_space c = true → is_space c = true.
Proof. destruct c as [[] [] [] [] [] [] [] []]; by vm_compute. Qed.

Lemma int_digits_chars (b : bool) (s ds : list ascii) :
  int_digits b s = Some ds → Forall (λ c, is_int_char c = true) s.
Proof.
  revert b ds. induction s as [|c s IH]; intros b ds H; [done|]. simpl in H.
  destruct (is_digit c) eqn:Ed.
  - destruct (int_digits false s) eqn:E; [|done]. constructor; [|by eapply IH].
    unfold is_int_char. rewrite Ed. by rewrite orb_true_r.
  - destruct (Ascii.eqb c "_") eqn:Eu; [|done].
    destruct b; [done|]. constructor; [|by eapply IH].
    unfold is_int_char. rewrite Eu. by rewrite !orb_true_r.
Qed.

Lemma py_int_chars (s : list ascii) (z : Z) :
  py_int s = Ok z → Forall (λ c, is_int_char c = true) s.
Proof.
  unfold py_int. intros H.
  destruct (strip_by_spec is_int_space s) as (ws1 & ws2 & Hs & Hws1 & Hws2).
  assert (Hsp : ∀ ws, Forall (λ c, is_int_space c = true) ws →
                Forall (λ c, is_int_char c = true) ws).
  { intros ws Hw. eapply Forall_impl; [exact Hw|].
    intros c Hc%int_space_is_space. unfold is_int_char. by rewrite Hc. }
  rewrite Hs. apply Forall_app. split; [by apply Hsp|].
  apply Forall_app. split; [|by apply Hsp].
  destruct (split_sign (strip_by is_int_space s)) as [neg body] eqn:Hsign.
  assert (Hbody : Forall (λ c, is_int_char c = true) body).
  { destruct body as [|c body]; [done|].
    destruct (is_digit c); [|done].
    destruct (int_digits false (c :: body)) eqn:E; [|done].
    by eapply int_digits_chars. }
  unfold split_sign in Hsign.
  destruct (strip_by is_int_space s) as [|c t]; [done|].
  destruct (Ascii.eqb c "-") eqn:E1; simplify_eq.
  { constructor; [|done]. unfold is_int_char. rewrite E1. by rewrite !orb_true_r. }
  destruct (Ascii.eqb c "+") eqn:E2; simplify_eq; [|done].
  constructor; [|done]. unfold is_int_char. rewrite E2. by rewrite !orb_true_r.
Qed.

Lemma split_chars (P : ascii → Prop) (sep : ascii) (s : list ascii) :
  P sep → Forall (Forall P) (split sep s) → Forall P s.
Proof.
  intros Hsep. induction s as [|c s IH]; [done|]. simpl.
  destruct (Ascii.eqb c sep) eqn:E.
  - apply Ascii.eqb_eq in E as ->. intros H. inversion H; subst.
    constructor; [done|]. by apply IH.
  - destruct (split sep s) as [|w ws]; intros H; inversion H as [|?? Hw Hws]; subst.
    + inversion Hw; subst. constructor; [done|]. apply IH. constructor.
    + inversion Hw; subst. constructor; [done|]. apply IH. by constructor.
Qed.

Lemma comprehension_Ok {A B} (f : A → result B) (xs : list A) (ys : list B) :
  comprehension f xs = Ok ys → Forall2 (λ x y, f x = Ok y) xs ys.
Proof.
  revert ys. induction xs as [|x xs IH]; intros ys H; simpl in H.
  - simplify_eq. constructor.
  - destruct (f x) as [y|] eqn:E; [|done]. rewrite bind_Ok in H.
    destruct (comprehension f xs) as [ys'|]; [|done]. rewrite bind_Ok in H.
    simplify_eq. constructor; [done|]. by apply IH.
Qed.

Lemma date_values_chars (d : list ascii) (vs : list Z) :
  date_values d = Ok vs → Forall is_date_char d.
Proof.
  intros H. apply comprehension_Ok in H.
  apply (split_chars is_date_char ","); [by right|].
  apply Forall_forall. intros w Hw.
  apply list_elem_of_lookup in Hw as [i Hi].
  destruct (Forall2_lookup_l _ _ _ _ _ H Hi) as (z & _ & Hz).
  apply py_int_chars in Hz.
  destruct (strip_spec w) as (ws1 & ws2 & Hs & Hws1 & Hws2).
  assert (Hsp : ∀ ws, Forall (λ c, is_space c = true) ws → Forall is_date_char ws).
  { intros ws Hw. eapply Forall_impl; [exact Hw|].
    intros c Hc. left. unfold is_int_char. by rewrite Hc. }
  rewrite Hs. apply Forall_app. split; [by apply Hsp|].
  apply Forall_app. split; [|by apply Hsp].
  eapply Forall_impl; [exact Hz|]. intros c Hc. by left.
Qed.

Lemma date_char_not_special (c : ascii) :
  is_date_char c →
  is_lower c = false ∧ not_rparen c = true ∧ not_rbrace c = true.
Proof. intros [H| ->]; [by apply int_char_not_special|done]. Qed.

Lemma date_values_nonempty (d : list ascii) (vs : list Z) :
  date_values d = Ok vs → d ≠ [].
Proof. by intros H ->. Qed.

(** A date part that converts can be matched again as group 1, and holds no
    lower-case letter. *)
Lemma date_values_shape (d : list ascii) (vs : list Z) :
  date_values d = Ok vs →
  d ≠ [] ∧ forallb not_rparen d = true ∧ no_lower d = true.
Proof.
  intros H. split; [by eapply date_values_nonempty|].
  apply date_values_chars in H.
  split; apply forallb_forall; intros c Hc; apply list_elem_of_In in Hc;
    (eapply Forall_forall in H; [|done]);
    apply date_char_not_special in H as (Hl & ? & ?); [done|by rewrite Hl].
Qed.

(** ** The field pattern *)

Ltac fields_cases H :=
  unfold fields in H;
  repeat (apply elem_of_cons in H as [->|H]);
  [.. | by apply elem_of_nil in H].

Ltac in_fields := apply (bool_decide_unpack (_ ∈ fields)); by vm_compute.

Lemma match_field_nil (f : string) : f ∈ fields → match_field f [] = None.
Proof. intros H. fields_cases H; reflexivity. Qed.

Lemma match_field_not_lower (f : string) (c : ascii) (s : list ascii) :
  f ∈ fields → is_lower c = false → match_field f (c :: s) = None.
Proof.
  intros H Hc. unfold match_field.
  fields_cases H; simpl;
    (destruct (Ascii.eqb _ c) eqn:E; [|done]);
    apply Ascii.eqb_eq in E; by subst.
Qed.

Lemma re_search_field_cons (f : list ascii) (c : ascii) (s : list ascii) :
  match_field f (c :: s) = None →
  re_search_field f (c :: s) = re_search_field f s.
Proof. intros H. simpl. by rewrite H. Qed.

Lemma re_search_field_found (f s v : list ascii) :
  match_field f s = Some v → re_search_field f s = Some v.
Proof. intros H. destruct s; simpl; by rewrite H. Qed.

Lemma re_search_field_skip (f : string) (g s : list ascii) :
  f ∈ fields → no_lower g = true →
  re_search_field f (g ++ s) = re_search_field f s.
Proof.
  intros Hf Hg. induction g as [|c g IH]; [done|].
  apply andb_prop in Hg as [Hc%negb_true_iff Hg].
  change ((c :: g) ++ s) with (c :: (g ++ s)).
  rewrite re_search_field_cons; [by apply IH|]. by apply match_field_not_lower.
Qed.

Lemma re_search_field_no_lower (f : string) (g : list ascii) :
  f ∈ fields → no_lower g = true → re_search_field f g = None.
Proof.
  intros Hf Hg. rewrite <- (app_nil_r g), re_search_field_skip by done.
  simpl. by rewrite match_field_nil.
Qed.

Lemma re_search_field_prefix (f : string) (s : list ascii) :
  f ∈ fields →
  re_search_field f ("{date:new Date(" ++ s) = re_search_field f s.
Proof. intros H. fields_cases H; reflexivity. Qed.

(** The search in the rebuilt fragment finds what a search in the text
    after the date finds: nothing can match inside a date part that
    converts. *)
Lemma re_search_field_full_obj (f : string) (d r : list ascii) (vs : list Z) :
  f ∈ fields → date_values d = Ok vs →
  re_search_field f (full_obj d r) = re_search_field f (r ++ "}").
Proof.
  intros Hf Hd. apply date_values_shape in Hd as (_ & _ & Hd).
  unfold full_obj. rewrite re_search_field_prefix by done.
  rewrite re_search_field_skip by done.
  change (")" ++ r ++ "}") with (")"%char :: (r ++ "}")).
  rewrite re_search_field_cons; [done|]. by apply match_field_not_lower.
Qed.

(** ** When the parser returns *)

Lemma is_ok_true {A} (r : result A) : is_ok r = true → ∃ a, r = Ok a.
Proof. destruct r; [by eexists|done]. Qed.

Lemma field_value_Some_iff (full : list ascii) (f : string) (o : option pyvalue) :
  field_value full f = Ok o → (is_Some o ↔ is_Some (re_search_field f full)).
Proof.
  unfold field_value. destruct (re_search_field f full) as [v|].
  - destruct (convert_field f v); [|done]. rewrite bind_Ok. intros; simplify_eq.
    split; eauto.
  - intros; simplify_eq. done.
Qed.

Lemma length_point_of t oc oh ol oo ov op od :
  length (point_of t oc oh ol oo ov op od)
  = match oc with Some _ => 1%nat | None => 0%nat end.
Proof. by destruct oc. Qed.

Lemma object_points_converts (d r : list ascii) :
  converts (d, r) = true →
  ∃ c, object_points d r = Ok c
       ∧ length c = if contributes (d, r) then 1%nat else 0%nat.
Proof.
  unfold converts, contributes, object_points. cbn [fst snd].
  destruct (date_values d) as [vs|e]; [|done]. rewrite bind_Ok.
  destruct (3 <=? length vs)%nat eqn:E3.
  - apply Nat.leb_le in E3.
    replace (length vs <? 3)%nat with false by (symmetry; apply Nat.ltb_ge; lia).
    rewrite orb_false_l. intros [Ht Hf]%andb_prop.
    apply is_ok_true in Ht as [t ->]. rewrite bind_Ok. cbv zeta.
    rewrite forallb_forall in Hf.
    assert (Hall : ∀ f : string, f ∈ fields →
              ∃ o, field_value (full_obj d r) f = Ok o).
    { intros f Hin. apply is_ok_true, Hf. by apply list_elem_of_In. }
    destruct (Hall "close") as [oc Hc]; [in_fields|].
    destruct (Hall "high") as [oh ->]; [in_fields|].
    destruct (Hall "low") as [ol ->]; [in_fields|].
    destruct (Hall "open") as [oo ->]; [in_fields|].
    destruct (Hall "volume") as [ov ->]; [in_fields|].
    destruct (Hall "pctrel") as [op ->]; [in_fields|].
    destruct (Hall "decimals") as [od ->]; [in_fields|].
    rewrite Hc, !bind_Ok. eexists. split; [done|].
    rewrite length_point_of. apply field_value_Some_iff in Hc.
    rewrite andb_true_l. destruct oc as [c|].
    + rewrite bool_decide_eq_true_2; [done|]. apply Hc. eauto.
    + rewrite bool_decide_eq_false_2; [done|]. intros H%Hc. by destruct H.
  - intros _. rewrite andb_false_l. by eexists.
Qed.

(** C1, amended.  The parser returns a sequence of points, rather than
    raising, whenever every conversion applied to the matched fragments
    succeeds; the sequence then holds exactly one point per fragment that
    has three or more date components and a close value, so that a text
    with no match, or with no such fragment, yields the empty sequence. *)
Theorem parse_returns_when_fragments_convert (text : list ascii) :
  forallb converts (findall_objects text) = true →
  ∃ pts, _parse_chart_response text = Ok pts
         ∧ length pts = length (filter (λ o, contributes o = true)
                                  (findall_objects text)).
Proof.
  rewrite parse_chart_response_eq.
  generalize (findall_objects text). intros objs Hall.
  induction objs as [|[d r] objs IH]; simpl in Hall |- *.
  - by exists [].
  - apply andb_prop in Hall as [Ho Hall].
    destruct (object_points_converts d r Ho) as (c & Hc & Hlen).
    destruct (IH Hall) as (pts & Hpts & Hl).
    rewrite Hc, bind_Ok.
    destruct (comprehension _ objs) as [cs|e]; [|done].
    rewrite ?bind_Ok. cbn in Hpts. simplify_eq.
    exists (c ++ concat cs). split; [done|].
    rewrite length_app, Hlen, Hl. rewrite filter_cons.
    destruct (contributes (d, r)); by case_decide.
Qed.

(** ** One fragment *)

Lemma match_field_occurrence (f v rest : list ascii) :
  v ≠ [] → forallb is_number_char v = true → stops is_number_char rest = true →
  match_field f (f ++ ":" ++ v ++ rest) = Some v.
Proof.
  intros Hv Hnum Hstop. unfold match_field.
  rewrite (app_assoc f ":"), strip_prefix_app. cbn [mbind option_bind].
  rewrite span_app by done. by destruct v.
Qed.

(** The first occurrence of [field:number] after text without lower-case
    letters is what the search finds. *)
Lemma re_search_field_occurrence (f : string) (sep v rest : list ascii) :
  f ∈ fields → no_lower sep = true →
  v ≠ [] → forallb is_number_char v = true → stops is_number_char rest = true →
  re_search_field f (sep ++ f ++ ":" ++ v ++ rest) = Some v.
Proof.
  intros Hf Hsep Hv Hnum Hstop. rewrite re_search_field_skip by done.
  apply re_search_field_found. by apply match_field_occurrence.
Qed.

Lemma stops_app_rbrace (s : list ascii) :
  stops is_number_char s = true → stops is_number_char (s ++ "}") = true.
Proof. by destruct s. Qed.

Lemma number_char_not_lower (s : list ascii) :
  forallb is_number_char s = true → no_lower s = true.
Proof.
  intros H. apply forallb_forall. intros c Hc.
  rewrite forallb_forall in H. specialize (H c Hc).
  revert H. clear. destruct c as [[] [] [] [] [] [] [] []]; by vm_compute.
Qed.

Lemma py_float_nonempty (v : list ascii) (x : pyfloat) : py_float v = Ok x → v ≠ [].
Proof. by intros H ->. Qed.

Lemma py_datetime_Ok (y mo d h mi s : Z) (t : datetime) :
  py_datetime y mo d h mi s = Ok t → t = mk_datetime y mo d h mi s.
Proof.
  unfold py_datetime. destruct (negb _); [done|].
  destruct (_ && _); [|done]. by intros; simplify_eq.
Qed.

Lemma timestamp_Ok (vs : list Z) (t : datetime) :
  timestamp vs = Ok t →
  ∃ y mo d tl, vs = y :: mo :: d :: tl
    ∧ t = mk_datetime y (mo + 1) d (nth 0 tl 0%Z) (nth 1 tl 0%Z) (nth 2 tl 0%Z).
Proof.
  destruct vs as [|y [|mo [|d tl]]]; try done. simpl.
  intros H%py_datetime_Ok. by exists y, mo, d, tl.
Qed.

Lemma findall_objects_single (pre d r post : list ascii) :
  forallb not_lbrace pre = true → forallb not_lbrace post = true →
  d ≠ [] → forallb not_rparen d = true → forallb not_rbrace r = true →
  findall_objects (pre ++ full_obj d r ++ post) = [(d, r)].
Proof.
  intros Hpre Hpost Hd Hp Hb. unfold findall_objects.
  rewrite findall_from_gap, findall_from_full_obj by done. f_equal.
  rewrite <- (app_nil_r post). by rewrite findall_from_gap.
Qed.

Lemma parse_chart_response_single (pre d r post : list ascii) (vs : list Z) :
  forallb not_lbrace pre = true → forallb not_lbrace post = true →
  date_values d = Ok vs → forallb not_rbrace r = true →
  _parse_chart_response (pre ++ full_obj d r ++ post) = object_points d r.
Proof.
  intros Hpre Hpost Hd Hb. rewrite parse_chart_response_eq.
  apply date_values_shape in Hd as (Hne & Hp & _).
  rewrite findall_objects_single by done. cbn [comprehension fst snd].
  destruct (object_points d r); [|done]. rewrite !bind_Ok. simpl.
  by rewrite app_nil_r.
Qed.

(** The field results of an object whose conversions all succeed. *)
Lemma field_values_Ok (full : list ascii) :
  forallb (λ f : string, is_ok (field_value full f)) fields = true →
  ∀ f : string, f ∈ fields → ∃ o, field_value full f = Ok o.
Proof.
  intros H f Hf. rewrite forallb_forall in H.
  apply is_ok_true, H. by apply list_elem_of_In.
Qed.

Lemma parse_object_of_points (pts c : list ChartPoint) (d r : list ascii) :
  object_points d r = Ok c → parse_object pts (d, r) = Ok (pts ++ c).
Proof. intros H. by rewrite parse_object_points, H. Qed.

(** C2.  A valid fragment [{date:new Date(Y, M, D[, h, m, s]),close:C,...}]
    yields one point, whose timestamp has year Y, month M+1 and day D, with
    hour, minute and second taken from the fourth to sixth date components
    or 0 when absent, and whose close is [float(C)]: the loop appends that
    point wherever the fragment is matched, and it is the whole output when
    the fragment stands in a text that holds no other opening brace. *)
Theorem valid_fragment_timestamp_and_close
    (pre post d sep C rest : list ascii) (Y M D : Z) (tl : list Z)
    (t : datetime) (c : pyfloat) :
  forallb not_lbrace pre = true → forallb not_lbrace post = true →
  date_values d = Ok (Y :: M :: D :: tl) →
  timestamp (Y :: M :: D :: tl) = Ok t →
  no_lower sep = true →
  forallb is_number_char C = true → stops is_number_char rest = true →
  py_float C = Ok c →
  forallb not_rbrace (sep ++ "close:" ++ C ++ rest) = true →
  forallb (λ f : string,
      is_ok (field_value (full_obj d (sep ++ "close:" ++ C ++ rest)) f))
    fields = true →
  ∃ p, (∀ pts, parse_object pts (d, sep ++ "close:" ++ C ++ rest)
               = Ok (pts ++ [p]))
       ∧ _parse_chart_response
           (pre ++ full_obj d (sep ++ "close:" ++ C ++ rest) ++ post) = Ok [p]
       ∧ date p = PDateTime t
       ∧ year t = Y ∧ month t = (M + 1)%Z ∧ day t = D
       ∧ hour t = nth 0 tl 0%Z ∧ minute t = nth 1 tl 0%Z
       ∧ second t = nth 2 tl 0%Z
       ∧ close p = PFloat c.
Proof.
  intros Hpre Hpost Hd Ht Hsep Hnum Hstop Hc Hb Hall.
  set (r := sep ++ "close:" ++ C ++ rest) in *.
  pose proof (field_values_Ok _ Hall) as Hf.
  assert (Hclose : field_value (full_obj d r) "close" = Ok (Some (PFloat c))).
  { unfold field_value.
    rewrite (re_search_field_full_obj "close" d r _) by (in_fields || done).
    unfold r.
    change (sep ++ "close:" ++ C ++ rest)
      with (sep ++ ("close" ++ ":") ++ C ++ rest).
    rewrite <- !app_assoc.
    rewrite (re_search_field_occurrence "close" sep C (rest ++ "}"));
      [|in_fields|done|by eapply py_float_nonempty|done
       |by apply stops_app_rbrace].
    unfold convert_field. rewrite Hc, bind_Ok. reflexivity. }
  assert (∃ p, object_points d r = Ok [p]
               ∧ date p = PDateTime t ∧ close p = PFloat c)
    as (p & Hobj & Hdate & Hcl).
  { unfold object_points. rewrite Hd, bind_Ok.
    change (3 <=? length (Y :: M :: D :: tl))%nat with true. cbv iota.
    rewrite Ht, bind_Ok. cbv zeta. rewrite Hclose, bind_Ok.
    destruct (Hf "high") as [oh ->]; [in_fields|].
    destruct (Hf "low") as [ol ->]; [in_fields|].
    destruct (Hf "open") as [oo ->]; [in_fields|].
    destruct (Hf "volume") as [ov ->]; [in_fields|].
    destruct (Hf "pctrel") as [op ->]; [in_fields|].
    destruct (Hf "decimals") as [od ->]; [in_fields|].
    rewrite !bind_Ok. by eexists. }
  exists p. split; [intros pts; by apply parse_object_of_points|].
  split.
  { by rewrite (parse_chart_response_single pre d r post _ Hpre Hpost Hd Hb). }
  split; [done|].
  apply timestamp_Ok in Ht as (y & mo & dd & tl' & Hvs & ->). by simplify_eq.
Qed.

Lemma re_search_field_close_literal (f : string) (s : list ascii) :
  f ∈ fields → f ≠ "close" →
  re_search_field f ("close:" ++ s) = re_search_field f s.
Proof. intros H Hne. fields_cases H; done. Qed.

Lemma no_lower_app (a b : list ascii) :
  no_lower a = true → no_lower b = true → no_lower (a ++ b) = true.
Proof. unfold no_lower. intros Ha Hb. by rewrite forallb_app, Ha, Hb. Qed.

(** In a fragment that holds a close value and no other key, no other
    recognised field is found. *)
Lemma field_value_only_close (f : string) (d sep C tail : list ascii) (vs : list Z) :
  f ∈ fields → f ≠ "close" → date_values d = Ok vs →
  no_lower sep = true → forallb is_number_char C = true → no_lower tail = true →
  field_value (full_obj d (sep ++ "close:" ++ C ++ tail)) f = Ok None.
Proof.
  intros Hf Hne Hd Hsep HC Htail. unfold field_value.
  rewrite (re_search_field_full_obj f d _ vs) by done.
  rewrite <- !app_assoc. rewrite re_search_field_skip by done.
  rewrite re_search_field_close_literal by done.
  rewrite re_search_field_no_lower; [done|done|].
  apply no_lower_app; [by apply number_char_not_lower|].
  by apply no_lower_app.
Qed.

(** C4.  A fragment that holds only a valid date and a close value yields
    one point with open = high = low = 0.0, volume = 0, pctrel = 0.0 and
    decimals = 2; its close is [float(C)] and its timestamp is the one
    built from the date.  The loop appends that point wherever the fragment
    is matched, and it is the whole output when the fragment stands in a
    text that holds no other opening brace. *)
Theorem only_date_and_close_defaults
    (pre post d sep C tail : list ascii) (vs : list Z) (t : datetime)
    (c : pyfloat) :
  forallb not_lbrace pre = true → forallb not_lbrace post = true →
  date_values d = Ok vs → timestamp vs = Ok t →
  no_lower sep = true → no_lower tail = true →
  forallb is_number_char C = true → stops is_number_char tail = true →
  py_float C = Ok c →
  forallb not_rbrace (sep ++ "close:" ++ C ++ tail) = true →
  let p := mk_ChartPoint (PDateTime t)
             (PFloat float_zero) (PFloat float_zero) (PFloat float_zero)
             (PFloat c) (PInt 0) (PFloat float_zero) (PInt 2) in
  (∀ pts, parse_object pts (d, sep ++ "close:" ++ C ++ tail) = Ok (pts ++ [p]))
  ∧ _parse_chart_response
      (pre ++ full_obj d (sep ++ "close:" ++ C ++ tail) ++ post) = Ok [p].
Proof.
  intros Hpre Hpost Hd Ht Hsep Htail Hnum Hstop Hc Hb p.
  set (r := sep ++ "close:" ++ C ++ tail) in *.
  assert (Hclose : field_value (full_obj d r) "close" = Ok (Some (PFloat c))).
  { unfold field_value.
    rewrite (re_search_field_full_obj "close" d r _) by (in_fields || done).
    unfold r.
    change (sep ++ "close:" ++ C ++ tail)
      with (sep ++ ("close" ++ ":") ++ C ++ tail).
    rewrite <- !app_assoc.
    rewrite (re_search_field_occurrence "close" sep C (tail ++ "}"));
      [|in_fields|done|by eapply py_float_nonempty|done
       |by apply stops_app_rbrace].
    unfold convert_field. rewrite Hc, bind_Ok. reflexivity. }
  assert (Hobj : object_points d r = Ok [p]).
  { unfold object_points. rewrite Hd, bind_Ok.
    destruct (timestamp_Ok _ _ Ht) as (y & mo & dd & tl & -> & _).
    change (3 <=? length (y :: mo :: dd :: tl))%nat with true. cbv iota.
    rewrite Ht, bind_Ok. cbv zeta. rewrite Hclose, bind_Ok.
    unfold r.
    rewrite !(field_value_only_close _ d sep C tail _) by (in_fields || done).
    by rewrite !bind_Ok. }
  split; [intros pts; by apply parse_object_of_points|].
  by rewrite (parse_chart_response_single pre d r post _ Hpre Hpost Hd Hb).
Qed.

(** ** Order *)

Lemma in_source_order_cons (objs : list (list ascii * list ascii))
    (c : ascii) (s : list ascii) :
  in_source_order objs s → in_source_order objs (c :: s).
Proof.
  destruct objs as [|[d r] objs]; [done|]. simpl.
  intros (gap & rest & -> & H). by exists (c :: gap), rest.
Qed.

Lemma findall_from_drop (k : nat) (s : list ascii) :
  findall_from k s = findall_from 0 (drop k s).
Proof.
  revert k. induction s as [|c s IH]; intros k; [by destruct k|].
  destruct k as [|k]; [done|]. simpl. apply IH.
Qed.

Lemma findall_in_source_order (s : list ascii) :
  in_source_order (findall_from 0 s) s.
Proof.
  remember (length s) as n eqn:Hn. revert s Hn.
  induction n as [n IH] using lt_wf_ind. intros s ->.
  destruct s as [|c s]; [done|]. cbn [findall_from].
  destruct (match_object (c :: s)) as [[[d r] after]|] eqn:Hm.
  - apply match_object_Some in Hm as (Hs & _).
    assert (∃ x, full_obj d r = c :: x ∧ s = x ++ after) as (x & Hx & ->).
    { unfold full_obj in *. simpl in Hs. simplify_eq. by eexists. }
    rewrite findall_from_drop, length_app.
    replace (length x + length after - length after)%nat with (length x) by lia.
    rewrite drop_app_length. cbn [in_source_order]. exists [], after. split.
    + by rewrite Hx.
    + eapply IH; [|done]. simpl. rewrite length_app. lia.
  - apply in_source_order_cons. eapply IH; [|done]. simpl. lia.
Qed.

Lemma length_object_points (d r : list ascii) (c : list ChartPoint) :
  object_points d r = Ok c → (length c ≤ 1)%nat.
Proof.
  unfold object_points.
  destruct (date_values d) as [vs|]; [|done]. rewrite bind_Ok.
  destruct (3 <=? length vs)%nat; [|intros; simplify_eq; simpl; lia].
  intros H. cbv zeta in H.
  repeat (apply bind_Ok_inv in H as (? & ? & H)). simplify_eq.
  rewrite length_point_of. case_match; lia.
Qed.

(** C5.  The output follows the order of the fragments in the text: the
    matched fragments occur in the text one after the other in the order
    they are processed, each contributes its point (or nothing), and the
    output is the concatenation of these contributions in that order. *)
Theorem parse_preserves_source_order (text : list ascii) (pts : list ChartPoint) :
  _parse_chart_response text = Ok pts →
  in_source_order (findall_objects text) text
  ∧ ∃ cs, Forall2 (λ o c, object_points o.1 o.2 = Ok c ∧ (length c ≤ 1)%nat)
            (findall_objects text) cs
          ∧ pts = concat cs.
Proof.
  intros H. split; [apply findall_in_source_order|].
  rewrite parse_chart_response_eq in H.
  destruct (comprehension _ _) as [cs|] eqn:Hcs; [|done].
  rewrite bind_Ok in H. simplify_eq. exists cs. split; [|done].
  apply comprehension_Ok in Hcs.
  eapply Forall2_impl; [exact Hcs|]. intros [d r] c Hc. split; [done|].
  by eapply length_object_points.
Qed.

(** ** Signs *)

Lemma digit_value_nonneg (c : ascii) : is_digit c = true → (0 <= digit_value c)%Z.
Proof.
  unfold is_digit, digit_value. intros [H _]%andb_prop.
  apply N.leb_le in H. lia.
Qed.

Lemma digits_value_nonneg (acc : Z) (s : list ascii) :
  forallb is_digit s = true → (0 <= acc)%Z → (0 <= digits_value acc s)%Z.
Proof.
  revert acc. induction s as [|c s IH]; intros acc H Hacc; [done|]. simpl in *.
  apply andb_prop in H as [Hc Hs]. apply IH; [done|].
  apply digit_value_nonneg in Hc. lia.
Qed.

Lemma round_half_even_nonneg (num den : Z) :
  (0 <= num)%Z → (0 < den)%Z → (0 <= round_half_even num den)%Z.
Proof.
  intros Hn Hd. unfold round_half_even.
  pose proof (Z.div_pos num den Hn Hd).
  repeat case_match; lia.
Qed.

Lemma binary64_nonneg (n d : Z) :
  (0 <= n)%Z → (0 < d)%Z → float_nonneg (binary64 false n d).
Proof.
  intros Hn Hd. unfold binary64.
  destruct (n =? 0)%Z; [done|].
  set (e := Z.max _ _).
  assert (Hm : (0 <= (if (0 <=? e)%Z then round_half_even n (d * 2 ^ e)
                      else round_half_even (n * 2 ^ (- e)) d))%Z).
  { destruct (0 <=? e)%Z eqn:He.
    - apply Z.leb_le in He. apply round_half_even_nonneg; [done|].
      apply Z.mul_pos_pos; [done|]. by apply Z.pow_pos_nonneg.
    - apply Z.leb_gt in He. apply round_half_even_nonneg; [|done].
      apply Z.mul_nonneg_nonneg; [done|]. apply Z.pow_nonneg. lia. }
  destruct (_ =? 2 ^ 53)%Z; destruct (971 <? _)%Z; simpl; done.
Qed.

Lemma binary64_neg (n d : Z) : binary64 true n d = float_neg (binary64 false n d).
Proof.
  unfold binary64. destruct (n =? 0)%Z; [done|].
  destruct (_ =? 2 ^ 53)%Z; by destruct (971 <? _)%Z.
Qed.

Lemma pow10_pos (k : nat) : (0 < 10 ^ Z.of_nat k)%Z.
Proof. apply Z.pow_pos_nonneg; lia. Qed.

Lemma span_is_digit (s run rest : list ascii) :
  span is_digit s = (run, rest) → forallb is_digit run = true.
Proof. intros H. by apply span_spec in H as (_ & ? & _). Qed.

Lemma decimal_parts_nonneg (body : list ascii) (n d : Z) :
  decimal_parts body = Some (n, d) → (0 <= n)%Z ∧ (0 < d)%Z.
Proof.
  unfold decimal_parts.
  destruct (span is_digit body) as [ip rest] eqn:Hip.
  apply span_is_digit in Hip.
  destruct rest as [|c rest'].
  - destruct ip; [done|]. intros; simplify_eq.
    split; [by apply digits_value_nonneg|lia].
  - destruct (Ascii.eqb c "."); [|done].
    destruct (span is_digit rest') as [fp junk] eqn:Hfp.
    apply span_is_digit in Hfp.
    destruct junk; [|done]. destruct (ip ++ fp) eqn:E; [done|].
    intros; simplify_eq. rewrite <- E. split; [|apply pow10_pos].
    apply digits_value_nonneg; [|done]. by rewrite forallb_app, Hip, Hfp.
Qed.

(** A text that starts with a sign is not the unsigned part of a literal. *)
Lemma decimal_parts_unsigned (body : list ascii) (nd : Z * Z) :
  decimal_parts body = Some nd → split_sign body = (false, body).
Proof.
  destruct body as [|c body]; [done|]. unfold decimal_parts, split_sign.
  destruct (Ascii.eqb c "-") eqn:E1.
  { apply Ascii.eqb_eq in E1 as ->. done. }
  destruct (Ascii.eqb c "+") eqn:E2; [|done].
  apply Ascii.eqb_eq in E2 as ->. done.
Qed.

Lemma py_float_nonneg (v : list ascii) (x : pyfloat) :
  py_float v = Ok x → head v ≠ Some "-"%char → float_nonneg x.
Proof.
  unfold py_float. intros H Hhead.
  destruct (split_sign v) as [neg body] eqn:Hs.
  assert (neg = false) as ->.
  { unfold split_sign in Hs. destruct v as [|c v]; [by simplify_eq|].
    destruct (Ascii.eqb c "-") eqn:E1.
    - apply Ascii.eqb_eq in E1 as ->. done.
    - destruct (Ascii.eqb c "+"); by simplify_eq. }
  destruct (decimal_parts body) as [[n d]|] eqn:Hd; [|done]. simplify_eq.
  apply decimal_parts_nonneg in Hd as [? ?]. by apply binary64_nonneg.
Qed.

(** The sign of a literal is the sign of the float. *)
Lemma py_float_minus (u : list ascii) (x : pyfloat) :
  py_float ("-"%char :: u) = Ok x → ∃ y, py_float u = Ok y ∧ x = float_neg y.
Proof.
  unfold py_float. change (split_sign ("-"%char :: u)) with (true, u).
  cbv beta iota.
  destruct (decimal_parts u) as [[n d]|] eqn:Hd; [|done].
  intros; simplify_eq. rewrite (decimal_parts_unsigned _ _ Hd), Hd.
  eexists. split; [done|]. apply binary64_neg.
Qed.

Lemma float_to_int_nonneg (x : pyfloat) (n : Z) :
  float_nonneg x → float_to_int x = Ok n → (0 <= n)%Z.
Proof.
  destruct x as [neg m e| |]; [|done..]. simpl. intros [-> Hm] H. simplify_eq.
  destruct (0 <=? e)%Z eqn:He.
  - apply Z.leb_le in He. apply Z.mul_nonneg_nonneg; [done|].
    by apply Z.pow_nonneg.
  - apply Z.div_pos; [done|]. apply Z.pow_pos_nonneg; [done|].
    apply Z.leb_gt in He. lia.
Qed.

(** ** The fields of a point *)

Lemma object_points_Ok_inv (d r : list ascii) (c : list ChartPoint) :
  object_points d r = Ok c →
  c = [] ∨
  ∃ vs t oc oh ol oo ov op od,
    date_values d = Ok vs ∧ timestamp vs = Ok t
    ∧ field_value (full_obj d r) "close" = Ok (Some oc)
    ∧ field_value (full_obj d r) "high" = Ok oh
    ∧ field_value (full_obj d r) "low" = Ok ol
    ∧ field_value (full_obj d r) "open" = Ok oo
    ∧ field_value (full_obj d r) "volume" = Ok ov
    ∧ field_value (full_obj d r) "pctrel" = Ok op
    ∧ field_value (full_obj d r) "decimals" = Ok od
    ∧ c = point_of t (Some oc) oh ol oo ov op od.
Proof.
  unfold object_points. intros H.
  apply bind_Ok_inv in H as (vs & Hvs & H).
  destruct (3 <=? length vs)%nat; [|left; by simplify_eq].
  cbv zeta in H.
  apply bind_Ok_inv in H as (t & Ht & H).
  apply bind_Ok_inv in H as (oc & Hoc & H).
  apply bind_Ok_inv in H as (oh & Hoh & H).
  apply bind_Ok_inv in H as (ol & Hol & H).
  apply bind_Ok_inv in H as (oo & Hoo & H).
  apply bind_Ok_inv in H as (ov & Hov & H).
  apply bind_Ok_inv in H as (op & Hop & H).
  apply bind_Ok_inv in H as (od & Hod & H).
  simplify_eq. destruct oc as [oc|]; [|by left]. right.
  by exists vs, t, oc, oh, ol, oo, ov, op, od.
Qed.

Lemma object_points_field (d r : list ascii) (p : ChartPoint) (f : string) :
  object_points d r = Ok [p] → f ∈ fields →
  ∃ o, field_value (full_obj d r) f = Ok o
       ∧ point_field p f = default (field_default f) o.
Proof.
  intros H Hf. apply object_points_Ok_inv in H as [H|H]; [done|].
  destruct H as (vs & t & oc & oh & ol & oo & ov & op & od & _ & _
                 & Hoc & Hoh & Hol & Hoo & Hov & Hop & Hod & Hp).
  unfold point_of in Hp. simplify_eq.
  fields_cases Hf; eexists; (split; [eassumption|reflexivity]).
Qed.

Lemma field_value_found (full : list ascii) (f : string) (v : list ascii)
    (o : option pyvalue) :
  re_search_field f full = Some v → field_value full f = Ok o →
  ∃ y, convert_field f v = Ok y ∧ o = Some y.
Proof.
  unfold field_value. intros -> H.
  apply bind_Ok_inv in H as (y & Hy & H). simplify_eq. by exists y.
Qed.

Lemma field_value_absent (full : list ascii) (f : string) (o : option pyvalue) :
  re_search_field f full = None → field_value full f = Ok o → o = None.
Proof. unfold field_value. intros -> H. by simplify_eq. Qed.

(** ** The leftmost match *)



(** ** Volume and pctrel *)

(** Every point of the output is the contribution of a matched object. *)
Lemma parse_chart_response_point (text : list ascii) (pts : list ChartPoint)
    (p : ChartPoint) :
  _parse_chart_response text = Ok pts → p ∈ pts →
  ∃ d r, (d, r) ∈ findall_objects text ∧ object_points d r = Ok [p].
Proof.
  intros H Hp. rewrite parse_chart_response_eq in H.
  apply bind_Ok_inv in H as (cs & Hcs & H). simplify_eq.
  apply comprehension_Ok in Hcs.
  apply list_elem_of_In, in_concat in Hp as (c & Hc & Hp).
  apply list_elem_of_In, list_elem_of_lookup in Hc as [i Hi].
  destruct (Forall2_lookup_r _ _ _ _ _ Hcs Hi) as ([d r] & Ho & Hobj).
  exists d, r. split; [by eapply list_elem_of_lookup_2|].
  cbn [fst snd] in Hobj. rewrite Hobj. f_equal.
  apply length_object_points in Hobj.
  destruct c as [|q [|q' c]]; simpl in *; [done| |lia].
  by destruct Hp as [->|[]].
Qed.

(** C7, amended.  Every point of the output is the point that the loop
    body appends for one matched fragment, its source fragment, and has an
    integer volume: 0 when the source fragment has no volume, otherwise
    [int(float(v))] of the captured text [v], which is non-negative when
    [v] does not start with a minus sign.  Its pctrel is 0.0 when the
    source fragment has none, otherwise the float of the captured text, and
    a leading minus sign negates the float of the digits that follow it. *)
Theorem volume_integer_and_pctrel_signed (text : list ascii)
    (pts : list ChartPoint) (p : ChartPoint) :
  _parse_chart_response text = Ok pts → p ∈ pts →
  ∃ d r, (d, r) ∈ findall_objects text
    ∧ parse_object [] (d, r) = Ok [p]
    ∧ (∃ n, volume p = PInt n
          ∧ match re_search_field "volume" (full_obj d r) with
            | None => n = 0%Z
            | Some v =>
                convert_field "volume" v = Ok (PInt n)
                ∧ (head v ≠ Some "-"%char → (0 <= n)%Z)
            end)
    ∧ match re_search_field "pctrel" (full_obj d r) with
      | None => pctrel p = PFloat float_zero
      | Some v =>
          ∃ x, py_float v = Ok x ∧ pctrel p = PFloat x
               ∧ ∀ u, v = "-"%char :: u →
                      ∃ y, py_float u = Ok y ∧ x = float_neg y
      end.
Proof.
  intros H Hp.
  destruct (parse_chart_response_point text pts p H Hp) as (d & r & Hin & Hobj).
  exists d, r. split; [done|].
  split; [exact (parse_object_of_points [] [p] d r Hobj)|]. split.
  - destruct (object_points_field d r p "volume" Hobj) as (o & Ho & Hv);
      [in_fields|].
    change (point_field p "volume") with (volume p) in Hv.
    change (field_default "volume") with (PInt 0) in Hv.
    destruct (re_search_field "volume" (full_obj d r)) as [v|] eqn:Hs.
    + destruct (field_value_found _ _ _ _ Hs Ho) as (y & Hy & ->).
      pose proof Hy as Hconv.
      unfold convert_field in Hy.
      apply bind_Ok_inv in Hy as (x & Hx & Hy).
      change (bool_decide ("volume" ∈ ["volume"; "decimals"])) with true in Hy.
      cbv iota in Hy.
      apply bind_Ok_inv in Hy as (n & Hn & Hy). simplify_eq.
      exists n. split; [done|]. split; [done|]. intros Hhead.
      eapply float_to_int_nonneg; [|done]. by eapply py_float_nonneg.
    + apply (field_value_absent _ _ _ Hs) in Ho as ->. by exists 0%Z.
  - destruct (object_points_field d r p "pctrel" Hobj) as (o & Ho & Hv);
      [in_fields|].
    change (point_field p "pctrel") with (pctrel p) in Hv.
    change (field_default "pctrel") with (PFloat float_zero) in Hv.
    destruct (re_search_field "pctrel" (full_obj d r)) as [v|] eqn:Hs.
    + destruct (field_value_found _ _ _ _ Hs Ho) as (y & Hy & ->).
      unfold convert_field in Hy.
      apply bind_Ok_inv in Hy as (x & Hx & Hy).
      change (bool_decide ("pctrel" ∈ ["volume"; "decimals"])) with false in Hy.
      cbv iota in Hy. simplify_eq. exists x. split_and!; [done..|].
      intros u ->. by apply py_float_minus.
    + by apply (field_value_absent _ _ _ Hs) in Ho as ->.
Qed.

(** ** Fragments that add no point *)

(** C3, amended.  A fragment whose date part has fewer than three
    components, or in which no close value is found, adds no point to the
    output, whatever else it holds; and it is passed over without an error
    whenever the conversions applied to it succeed, a missing field never
    being an error. *)
Theorem fragment_without_date_or_close_adds_no_point
    (pts : list ChartPoint) (d r : list ascii) :
  (length (split "," d) < 3)%nat
  ∨ re_search_field "close" (full_obj d r) = None →
  (∀ out, parse_object pts (d, r) = Ok out → out = pts)
  ∧ (converts (d, r) = true → parse_object pts (d, r) = Ok pts).
Proof.
  intros Hcase.
  assert (Hskip : ∀ c, object_points d r = Ok c → c = []).
  { intros c Hc. destruct (object_points_Ok_inv d r c Hc) as [?|H]; [done|].
    destruct H as (vs & t & oc & oh & ol & oo & ov & op & od & Hvs & Ht
                   & Hoc & _).
    exfalso. destruct Hcase as [Hlen|Hnone].
    - apply timestamp_Ok in Ht as (y & mo & dd & tl & -> & _).
      apply comprehension_Ok, Forall2_length in Hvs.
      rewrite Hvs in Hlen. simpl in Hlen. lia.
    - by apply (field_value_absent _ _ _ Hnone) in Hoc. }
  rewrite parse_object_points. split.
  - intros out H. apply bind_Ok_inv in H as (c & Hc & H). simplify_eq.
    rewrite (Hskip c Hc). apply app_nil_r.
  - intros Hconv. destruct (object_points_converts d r Hconv) as (c & Hc & _).
    rewrite Hc, bind_Ok, (Hskip c Hc). by rewrite app_nil_r.
Qed.

(** ** The search mapper *)

Lemma or_else_get (d : gmap string pyvalue) (k : string) (keys : list string)
    (dflt : pyvalue) (rest : result pyvalue) :
  rest = Ok (resolve keys dflt d) →
  or_else (item_get (PDict d) k) rest = Ok (resolve (k :: keys) dflt d).
Proof.
  intros ->. unfold or_else, item_get, resolve, dict_get. rewrite bind_Ok.
  simpl. destruct (d !! k) as [v|]; simpl; [|done]. by destruct (truthy v).
Qed.

Lemma search_item_dict (d : gmap string pyvalue) :
  search_item (PDict d) = search_result_of d.
Proof.
  unfold search_item, search_result_of.
  rewrite (or_else_get d "ID_NOTATION" ["id_notation"; "id"] (PInt 0));
    [|by rewrite (or_else_get d "id_notation" ["id"] (PInt 0));
        [|by rewrite (or_else_get d "id" [] (PInt 0))]].
  rewrite bind_Ok.
  destruct (py_int_of _) as [id|]; [|done]. rewrite !bind_Ok.
  rewrite (or_else_get d "NAME" ["name"] (PStr ""));
    [|by rewrite (or_else_get d "name" [] (PStr ""))].
  rewrite bind_Ok.
  rewrite (or_else_get d "SYMBOL" ["symbol"] (dict_get d "symbol" PNone));
    [|by rewrite <- (or_else_get d "symbol" [] (dict_get d "symbol" PNone)
                      (item_get (PDict d) "symbol")); [|done];
         unfold or_else, item_get; rewrite bind_Ok; destruct (truthy _)].
  rewrite bind_Ok.
  rewrite (or_else_get d "MARKET" ["market"] (dict_get d "market" PNone));
    [|by rewrite <- (or_else_get d "market" [] (dict_get d "market" PNone)
                      (item_get (PDict d) "market")); [|done];
         unfold or_else, item_get; rewrite bind_Ok; destruct (truthy _)].
  rewrite bind_Ok.
  rewrite (or_else_get d "TYPE" ["type"] (dict_get d "type" PNone));
    [|by rewrite <- (or_else_get d "type" [] (dict_get d "type" PNone)
                      (item_get (PDict d) "type")); [|done];
         unfold or_else, item_get; rewrite bind_Ok; destruct (truthy _)].
  by rewrite bind_Ok.
Qed.

Lemma for_each_append {A B} (f : A → result B) (xs : list A) (acc : list B) :
  for_each (λ rs x, r ← f x; Ok (rs ++ [r])) xs acc =
  (ys ← comprehension f xs; Ok (acc ++ ys)).
Proof.
  revert acc. induction xs as [|x xs IH]; intros acc; simpl.
  - by rewrite app_nil_r.
  - destruct (f x) as [y|]; [|done]. rewrite !bind_Ok, IH.
    destruct (comprehension f xs) as [ys|]; [|done].
    rewrite !bind_Ok. by rewrite <- app_assoc.
Qed.

Lemma comprehension_ext {A B} (f g : A → result B) (xs : list A) :
  (∀ x, f x = g x) → comprehension f xs = comprehension g xs.
Proof. intros H. induction xs as [|x xs IH]; [done|]. simpl. by rewrite H, IH. Qed.

Lemma search_item_eq (item : pyvalue) : search_item item = map_record item.
Proof. destruct item; try done. apply search_item_dict. Qed.

(** C8, amended.  Once the transport has answered, [search] maps each
    record of a list response, in order: the identifier is [int()] of the
    first of ID_NOTATION, id_notation, id held with a truthy value, or 0
    when there is none; the name is the first of NAME, name held with a
    truthy value, or the empty string; symbol, market and type are the
    first truthy candidate, else the value of the lower-case key, else
    None; the record itself is kept.  A response that is not a list yields
    the empty sequence. *)
Theorem search_maps_records (self : FinmarketClient) (query market : list ascii)
    (response : Response) (data : pyvalue) :
  session_get (BASE_URL ++ "/global/buscador.html")
    (<["MERCADO" := PStr market]> (<["SEARCH_VALUE" := PStr query]> ∅))
    (timeout self) = Ok response →
  raise_for_status response = Ok () →
  json response = Ok data →
  search self query market =
  match data with
  | PList items => comprehension map_record items
  | _ => Ok []
  end.
Proof.
  intros Hget Hstatus Hjson. unfold search. cbv zeta.
  rewrite Hget, bind_Ok, Hstatus, bind_Ok, Hjson, bind_Ok.
  destruct data as [| | | | | |items|]; try done.
  rewrite for_each_append.
  rewrite (comprehension_ext _ _ items search_item_eq).
  by destruct (comprehension map_record items).
Qed.

(** ** The chart request *)

(** [get_chart_data] hands [chart_params] to the transport. *)
Lemma get_chart_data_request (self : FinmarketClient) (id : Z)
    (ts quality : list ascii) (volume : bool) :
  get_chart_data self id ts quality volume =
  (response ← session_get (BASE_URL ++ "/chart/datachart.html")
                (chart_params id ts quality volume) (timeout self);
   _ ← raise_for_status response;
   points ← _parse_chart_response (text response);
   Ok (mk_ChartData id ts points)).
Proof. reflexivity. Qed.

(** C9.  Every call of [get_chart_data] hands the transport one request,
    at the chart address and with the timeout of the client, and what it
    returns or raises is what follows from the answer to that request.
    For the MAX time span the query parameters of the request hold the
    start date 1900-01-01 and the current date as end date, and no
    TIME_SPAN; for every other time span they hold that span as TIME_SPAN
    and neither date. *)
Theorem get_chart_data_time_span_params (self : FinmarketClient) (id : Z)
    (ts quality : list ascii) (volume : bool) :
  ts ∈ TimeSpan →
  let params := chart_params id ts quality volume in
  get_chart_data self id ts quality volume =
    (response ← session_get (BASE_URL ++ "/chart/datachart.html")
                  params (timeout self);
     _ ← raise_for_status response;
     points ← _parse_chart_response (text response);
     Ok (mk_ChartData id ts points))
  ∧ (ts = ("MAX" : list ascii) →
     params !! "DATEINI" = Some (PStr "1900-01-01")
     ∧ params !! "DATEFIN" = Some (PStr (strftime_Ymd date_today))
     ∧ params !! "TIME_SPAN" = None)
  ∧ (ts ≠ ("MAX" : list ascii) →
     params !! "TIME_SPAN" = Some (PStr ts)
     ∧ params !! "DATEINI" = None
     ∧ params !! "DATEFIN" = None).
Proof.
  intros _ params. subst params.
  split; [apply get_chart_data_request|].
  unfold chart_params. split; intros Hts.
  - rewrite bool_decide_eq_true_2 by done.
    by rewrite ?lookup_insert_eq, ?lookup_insert_ne, ?lookup_empty by done.
  - rewrite bool_decide_eq_false_2 by done.
    by rewrite ?lookup_insert_eq, ?lookup_insert_ne, ?lookup_empty by done.
Qed.

(** ** Complements *)

(** The fragments of a rendered text are found in their order. *)
Lemma findall_objects_render
    (chunks : list (list ascii * (list ascii * list ascii))) (last : list ascii) :
  forallb well_formed_chunk chunks = true → forallb not_lbrace last = true →
  findall_objects (render chunks last) = map snd chunks.
Proof.
  intros Hwf Hlast. unfold findall_objects.
  induction chunks as [|[gap [d r]] chunks IH]; cbn [render forallb map] in *.
  - rewrite <- (app_nil_r last). by rewrite findall_from_gap.
  - apply andb_prop in Hwf as [Hc Hwf]. unfold well_formed_chunk in Hc.
    cbn [fst snd] in Hc.
    apply andb_prop in Hc as [[[Hgap Hne]%andb_prop Hp]%andb_prop Hb].
    apply negb_true_iff, bool_decide_eq_false in Hne.
    rewrite findall_from_gap, findall_from_full_obj by done.
    f_equal. by apply IH.
Qed.

(** The output for a rendered text is the concatenation, in the order of
    the text, of what each fragment contributes. *)
Lemma parse_chart_response_render
    (chunks : list (list ascii * (list ascii * list ascii))) (last : list ascii) :
  forallb well_formed_chunk chunks = true → forallb not_lbrace last = true →
  _parse_chart_response (render chunks last) =
  (cs ← comprehension (λ o, object_points o.1 o.2) (map snd chunks);
   Ok (concat cs)).
Proof.
  intros Hwf Hlast. by rewrite parse_chart_response_eq, findall_objects_render.
Qed.

(** A point contributed by a matched object is in the output. *)
Lemma parse_chart_response_contains (text : list ascii) (pts : list ChartPoint)
    (d r : list ascii) (p : ChartPoint) :
  _parse_chart_response text = Ok pts →
  (d, r) ∈ findall_objects text → object_points d r = Ok [p] → p ∈ pts.
Proof.
  intros H Hin Hobj. rewrite parse_chart_response_eq in H.
  apply bind_Ok_inv in H as (cs & Hcs & H). simplify_eq.
  apply comprehension_Ok in Hcs.
  apply list_elem_of_lookup in Hin as [i Hi].
  destruct (Forall2_lookup_l _ _ _ _ _ Hcs Hi) as (c & Hc & Hobj').
  cbn [fst snd] in Hobj'. rewrite Hobj in Hobj'. simplify_eq.
  apply list_elem_of_In, in_concat. exists [p].
  split; [by eapply list_elem_of_In, list_elem_of_lookup_2|by left].
Qed.

(** The only exceptions of the conversions are [ValueError] and
    [OverflowError]. *)
Lemma py_int_raises (s : list ascii) (e : exn) : py_int s = Raise e → e = ValueError.
Proof.
  unfold py_int. destruct (split_sign _) as [neg body].
  destruct body as [|c body]; [by intros; simplify_eq|].
  destruct (is_digit c); [|by intros; simplify_eq].
  destruct (int_digits _ _); [|by intros; simplify_eq].
  destruct (_ && _); by intros; simplify_eq.
Qed.

Lemma date_values_raises (d : list ascii) (e : exn) :
  date_values d = Raise e → e = ValueError.
Proof.
  unfold date_values. generalize (split "," d). intros ws.
  induction ws as [|w ws IH]; simpl; [done|].
  destruct (py_int (strip w)) eqn:E.
  - rewrite bind_Ok. destruct (comprehension _ ws); [done|].
    rewrite bind_Raise. intros; simplify_eq. by apply IH.
  - rewrite bind_Raise. intros; simplify_eq. by eapply py_int_raises.
Qed.

Lemma timestamp_raises (vs : list Z) (e : exn) :
  (3 <=? length vs)%nat = true → timestamp vs = Raise e →
  e = ValueError ∨ e = OverflowError.
Proof.
  destruct vs as [|y [|mo [|dd tl]]]; try done. intros _. simpl.
  unfold py_datetime. destruct (negb _); [intros; simplify_eq; by right|].
  destruct (_ && _); [done|]. intros; simplify_eq; by left.
Qed.

Lemma field_value_raises (full : list ascii) (f : string) (e : exn) :
  field_value full f = Raise e → e = ValueError ∨ e = OverflowError.
Proof.
  unfold field_value, convert_field, py_float.
  destruct (re_search_field f full) as [v|]; [|done].
  destruct (split_sign v) as [neg body].
  destruct (decimal_parts body) as [[n dd]|];
    [|rewrite !bind_Raise; intros; simplify_eq; by left].
  rewrite bind_Ok. destruct (bool_decide _); [|done].
  unfold binary64, float_to_int.
  repeat case_match; rewrite ?bind_Ok, ?bind_Raise; intros; simplify_eq;
    by right.
Qed.

Lemma object_points_raises (d r : list ascii) (e : exn) :
  object_points d r = Raise e → e = ValueError ∨ e = OverflowError.
Proof.
  unfold object_points.
  destruct (date_values d) as [vs|e'] eqn:Hd.
  2:{ rewrite bind_Raise. intros; simplify_eq. left.
      by eapply date_values_raises. }
  rewrite bind_Ok. destruct (3 <=? length vs)%nat eqn:E3; [|done].
  destruct (timestamp vs) as [t|e'] eqn:Ht.
  2:{ rewrite bind_Raise. intros; simplify_eq. by eapply timestamp_raises. }
  rewrite bind_Ok. cbv zeta.
  repeat match goal with
    | |- context [field_value ?full ?f ≫= _] =>
        let E := fresh "E" in
        destruct (field_value full f) eqn:E;
        [rewrite bind_Ok
        |rewrite bind_Raise; intros; simplify_eq; by eapply field_value_raises]
    end.
  done.
Qed.

(** When the parser raises, the exception is a [ValueError] or an
    [OverflowError] of a conversion. *)
Lemma parse_chart_response_raises (text : list ascii) (e : exn) :
  _parse_chart_response text = Raise e → e = ValueError ∨ e = OverflowError.
Proof.
  rewrite parse_chart_response_eq. generalize (findall_objects text).
  intros objs. induction objs as [|[d r] objs IH]; simpl; [done|].
  destruct (object_points d r) as [c|e'] eqn:Hc.
  - rewrite bind_Ok. destruct (comprehension _ objs); [done|].
    rewrite !bind_Raise. intros; simplify_eq. by apply IH.
  - rewrite !bind_Raise. intros; simplify_eq. by eapply object_points_raises.
Qed.

(** The parser returns only when every conversion succeeds. *)
Lemma object_points_Ok_converts (d r : list ascii) (c : list ChartPoint) :
  object_points d r = Ok c → converts (d, r) = true.
Proof.
  unfold object_points, converts. cbn [fst snd]. intros H.
  apply bind_Ok_inv in H as (vs & -> & H).
  destruct (3 <=? length vs)%nat eqn:E3.
  2:{ apply Nat.leb_gt in E3. apply orb_true_iff. left. by apply Nat.ltb_lt. }
  cbv zeta in H.
  apply bind_Ok_inv in H as (t & -> & H).
  apply bind_Ok_inv in H as (oc & Hoc & H).
  apply bind_Ok_inv in H as (oh & Hoh & H).
  apply bind_Ok_inv in H as (ol & Hol & H).
  apply bind_Ok_inv in H as (oo & Hoo & H).
  apply bind_Ok_inv in H as (ov & Hov & H).
  apply bind_Ok_inv in H as (op & Hop & H).
  apply bind_Ok_inv in H as (od & Hod & H).
  apply orb_true_iff. right. unfold fields. cbn [forallb is_ok].
  by rewrite Hoc, Hoh, Hol, Hoo, Hov, Hop, Hod.
Qed.

Lemma parse_chart_response_Ok_converts (text : list ascii) (pts : list ChartPoint) :
  _parse_chart_response text = Ok pts →
  forallb converts (findall_objects text) = true.
Proof.
  rewrite parse_chart_response_eq. intros H.
  apply bind_Ok_inv in H as (cs & Hcs & _). apply comprehension_Ok in Hcs.
  apply forallb_forall. intros [d r] Hin.
  apply list_elem_of_In, list_elem_of_lookup in Hin as [i Hi].
  destruct (Forall2_lookup_l _ _ _ _ _ Hcs Hi) as (c & _ & Hobj).
  by eapply object_points_Ok_converts.
Qed.

(** ** The export to a table *)

(** X1.  With pandas installed, [to_dataframe] hands its constructor one
    row per point, in the order of the points, each row holding the columns
    date, open, high, low, close, volume, pctrel in that order with the
    values of the point (there is no decimals column); without pandas it
    raises [ImportError], whatever the data. *)
Theorem to_dataframe_rows {DataFrame : Type}
    (pd_DataFrame : list (list (string * pyvalue)) → DataFrame)
    (self : ChartData) :
  (∃ rows, to_dataframe (Some pd_DataFrame) self = Returned (pd_DataFrame rows)
     ∧ length rows = length (points self)
     ∧ ∀ i p, points self !! i = Some p →
         ∃ row, rows !! i = Some row
           ∧ map fst row = columns
           ∧ map snd row = [date p; open p; high p; low p; close p;
                            volume p; pctrel p])
  ∧ ∃ msg, ∀ other : ChartData,
      to_dataframe (None : option (_ → DataFrame)) other = ImportError msg.
Proof.
  split; [|by eexists].
  exists (dataframe_rows self). split; [done|]. unfold dataframe_rows.
  split; [by rewrite length_map|].
  intros i p Hp. exists (point_row p). split; [|done].
  by rewrite list_lookup_fmap, Hp.
Qed.

(** X2.  The export loses the decimals of the points and nothing else of
    them: two series give the same rows exactly when they have the same
    number of points and their points agree, in order, on every field but
    decimals. *)
Theorem dataframe_rows_lose_only_decimals (a b : ChartData) :
  dataframe_rows a = dataframe_rows b
  ↔ Forall2 same_but_decimals (points a) (points b).
Proof.
  unfold dataframe_rows. generalize (points a) (points b). clear.
  intros ps. induction ps as [|p ps IH]; intros [|q qs]; simpl; split;
    try done; try (intros H; by inversion H).
  - intros H. injection H as Hrow Hrest. constructor; [|by apply IH].
    unfold point_row in Hrow. by simplify_eq.
  - intros H. inversion H as [|???? Hpq Hrest]; subst.
    f_equal; [|by apply IH].
    destruct Hpq as (? & ? & ? & ? & ? & ? & ?). unfold point_row. congruence.
Qed.

(** ** Shape of the matches *)

(** X3.  Whatever the text, every fragment the scan captures has a date
    part that is not empty and holds no closing parenthesis, and a rest
    part that holds no closing brace: a fragment ends at the first closing
    brace after its date. *)
Theorem findall_objects_captured (text : list ascii) :
  Forall captured (findall_objects text).
Proof.
  unfold findall_objects.
  remember (length text) as n eqn:Hn. revert text Hn.
  induction n as [n IH] using lt_wf_ind. intros s ->.
  destruct s as [|c s]; [constructor|]. cbn [findall_from].
  destruct (match_object (c :: s)) as [[[d r] after]|] eqn:Hm.
  - apply match_object_Some in Hm as (Hs & Hd & Hp & Hb).
    constructor; [done|].
    assert (∃ x, s = x ++ after) as (x & ->).
    { exists (tail (full_obj d r)).
      change (full_obj d r) with ("{"%char :: tail (full_obj d r)) in Hs.
      by injection Hs. }
    rewrite findall_from_drop, length_app.
    replace (length x + length after - length after)%nat with (length x) by lia.
    rewrite drop_app_length. eapply IH; [|done]. simpl. rewrite length_app. lia.
  - eapply IH; [|done]. simpl. lia.
Qed.

(** ** Shape of the points *)

Lemma py_float_is_number (v : list ascii) (x : pyfloat) :
  py_float v = Ok x → is_number x.
Proof.
  unfold py_float, binary64, is_number.
  destruct (split_sign v) as [neg body].
  destruct (decimal_parts body) as [[n d]|]; [|done].
  repeat case_match; intros; by simplify_eq.
Qed.

Lemma py_datetime_valid (y mo d h mi s : Z) (t : datetime) :
  py_datetime y mo d h mi s = Ok t → valid_datetime t = true.
Proof.
  unfold py_datetime. destruct (negb _); [done|].
  destruct (_ && _) eqn:E; [|done]. intros; by simplify_eq.
Qed.

Lemma float_field_value (full : list ascii) (f : string) (o : option pyvalue) :
  bool_decide (f ∈ ["volume"; "decimals"]) = false →
  field_value full f = Ok o →
  ∃ x, default (PFloat float_zero) o = PFloat x ∧ is_number x.
Proof.
  unfold field_value, convert_field. intros Hf H.
  destruct (re_search_field f full) as [v|]; [|simplify_eq; by eexists].
  apply bind_Ok_inv in H as (y & Hy & H). simplify_eq.
  apply bind_Ok_inv in Hy as (x & Hx & Hy). rewrite Hf in Hy. simplify_eq.
  exists x. split; [done|]. by eapply py_float_is_number.
Qed.

Lemma int_field_value (full : list ascii) (f : string) (o : option pyvalue)
    (k : Z) :
  bool_decide (f ∈ ["volume"; "decimals"]) = true →
  field_value full f = Ok o → ∃ n, default (PInt k) o = PInt n.
Proof.
  unfold field_value, convert_field. intros Hf H.
  destruct (re_search_field f full) as [v|]; [|simplify_eq; by eexists].
  apply bind_Ok_inv in H as (y & Hy & H). simplify_eq.
  apply bind_Ok_inv in Hy as (x & Hx & Hy). rewrite Hf in Hy.
  apply bind_Ok_inv in Hy as (n & Hn & Hy). simplify_eq. by exists n.
Qed.

(** X4.  Every point of the output has a timestamp within the ranges of
    [datetime] (year 1..9999, month 1..12, a day the month has, hour 0..23,
    minute and second 0..59), floats that are numbers for open, high, low,
    close and pctrel, and integers for volume and decimals. *)
Theorem parsed_points_well_formed (text : list ascii) (pts : list ChartPoint)
    (p : ChartPoint) :
  _parse_chart_response text = Ok pts → p ∈ pts →
  ∃ t o h l c n pc k,
    p = mk_ChartPoint (PDateTime t) (PFloat o) (PFloat h) (PFloat l) (PFloat c)
          (PInt n) (PFloat pc) (PInt k)
    ∧ valid_datetime t = true
    ∧ is_number o ∧ is_number h ∧ is_number l ∧ is_number c ∧ is_number pc.
Proof.
  intros H Hp.
  destruct (parse_chart_response_point text pts p H Hp) as (d & r & _ & Hobj).
  apply object_points_Ok_inv in Hobj as [?|Hobj]; [done|].
  destruct Hobj as (vs & t & oc & oh & ol & oo & ov & op & od & _ & Ht
                    & Hoc & Hoh & Hol & Hoo & Hov & Hop & Hod & Hpt).
  unfold point_of in Hpt. simplify_eq.
  destruct (float_field_value _ "close" _ eq_refl Hoc) as (c & Hc & ?).
  destruct (float_field_value _ "high" _ eq_refl Hoh) as (h & -> & ?).
  destruct (float_field_value _ "low" _ eq_refl Hol) as (l & -> & ?).
  destruct (float_field_value _ "open" _ eq_refl Hoo) as (o & -> & ?).
  destruct (float_field_value _ "pctrel" _ eq_refl Hop) as (pc & -> & ?).
  destruct (int_field_value _ "volume" _ 0 eq_refl Hov) as (n & ->).
  destruct (int_field_value _ "decimals" _ 2 eq_refl Hod) as (k & ->).
  simpl in Hc. subst oc.
  exists t, o, h, l, c, n, pc, k. split; [done|]. split; [|done].
  apply timestamp_Ok in Ht as Ht'. destruct Ht' as (y & mo & dd & tl & -> & _).
  simpl in Ht. by eapply py_datetime_valid.
Qed.

(** ** Dates out of range *)

Lemma py_datetime_invalid (Y M D h mi s : Z) :
  valid_date_components Y M D h mi s = false →
  py_datetime Y (M + 1) D h mi s = Raise ValueError
  ∨ py_datetime Y (M + 1) D h mi s = Raise OverflowError.
Proof.
  unfold py_datetime, valid_date_components. intros H.
  destruct (negb _); [by right|]. left.
  replace (between 1 (M + 1) 12) with (between 0 M 11)
    by (unfold between; apply eq_true_iff_eq;
        rewrite !andb_true_iff, !Z.leb_le; lia).
  by rewrite H.
Qed.

(** X5.  A fragment with three or more integer date components that do
    not make a timestamp (a month outside 0..11 of the source, a day the
    month does not have, an hour past 23, ...) is not passed over: the loop
    raises [ValueError], or [OverflowError] for a component that does not
    fit a C int. *)
Theorem date_out_of_range_raises (pts : list ChartPoint) (d r : list ascii)
    (Y M D : Z) (tl : list Z) :
  date_values d = Ok (Y :: M :: D :: tl) →
  valid_date_components Y M D (nth 0 tl 0%Z) (nth 1 tl 0%Z) (nth 2 tl 0%Z)
    = false →
  parse_object pts (d, r) = Raise ValueError
  ∨ parse_object pts (d, r) = Raise OverflowError.
Proof.
  intros Hd Hv. rewrite parse_object_points. unfold object_points.
  rewrite Hd, bind_Ok.
  change (3 <=? length (Y :: M :: D :: tl))%nat with true. cbv iota.
  cbn [timestamp].
  destruct (py_datetime_invalid _ _ _ _ _ _ Hv) as [-> | ->]; [by left|by right].
Qed.

(** ** Integers through [float] *)

Lemma round_half_even_1 (x : Z) : round_half_even x 1 = x.
Proof.
  unfold round_half_even. rewrite Z.div_1_r, Z.mod_1_r. reflexivity.
Qed.

Lemma log2_ratio_1 (n : Z) : (0 < n)%Z → log2_ratio n 1 = Z.log2 n.
Proof.
  intros Hn. unfold log2_ratio. change (Z.log2 1) with 0%Z.
  rewrite Z.sub_0_r. pose proof (Z.log2_nonneg n) as H0.
  destruct (0 <=? Z.log2 n)%Z eqn:E; [|apply Z.leb_gt in E; lia].
  pose proof (Z.log2_spec n Hn) as [Hlo _].
  destruct (1 * 2 ^ Z.log2 n <=? n)%Z eqn:E2; [done|].
  apply Z.leb_gt in E2. lia.
Qed.

(** An integer below 2^53 is a float, and comes back from it. *)
Lemma binary64_integer_exact (neg : bool) (n : Z) :
  (0 <= n < 2 ^ 53)%Z → float_to_int (binary64 neg n 1) = Ok (signed neg n).
Proof.
  intros [Hn Hlt]. unfold binary64.
  destruct (n =? 0)%Z eqn:E0.
  { apply Z.eqb_eq in E0 as ->. by destruct neg. }
  apply Z.eqb_neq in E0. assert (Hpos : (0 < n)%Z) by lia.
  rewrite log2_ratio_1 by done.
  pose proof (Z.log2_spec n Hpos) as [Hlo Hhi].
  pose proof (Z.log2_nonneg n) as H0.
  assert (HL : (Z.log2 n < 53)%Z) by (apply Z.log2_lt_pow2; lia).
  set (L := Z.log2 n) in *.
  rewrite Z.max_l by lia.
  destruct (0 <=? L - 52)%Z eqn:E.
  - apply Z.leb_le in E. assert (L = 52%Z) as HL52 by lia.
    replace (L - 52)%Z with 0%Z by lia.
    change (1 * 2 ^ 0)%Z with 1%Z. rewrite round_half_even_1.
    destruct (n =? 2 ^ 53)%Z eqn:E53; [apply Z.eqb_eq in E53; lia|].
    change (971 <? 0)%Z with false. cbv iota.
    cbn [float_to_int]. change (0 <=? 0)%Z with true. cbv iota.
    change (2 ^ 0)%Z with 1%Z. by rewrite Z.mul_1_r.
  - apply Z.leb_gt in E. rewrite round_half_even_1.
    assert (Hm : (n * 2 ^ (- (L - 52)) < 2 ^ 53)%Z).
    { replace (2 ^ 53)%Z with (2 ^ (L + 1) * 2 ^ (- (L - 52)))%Z
        by (rewrite <- Z.pow_add_r by lia; f_equal; lia).
      apply Z.mul_lt_mono_pos_r; [apply Z.pow_pos_nonneg; lia|done]. }
    destruct (_ =? 2 ^ 53)%Z eqn:E53; [apply Z.eqb_eq in E53; lia|].
    destruct (971 <? L - 52)%Z eqn:E971; [apply Z.ltb_lt in E971; lia|].
    cbn [float_to_int]. rewrite (proj2 (Z.leb_gt _ _) E).
    rewrite Z.div_mul; [done|]. apply Z.pow_nonzero; lia.
Qed.

(** An integer from 2^1024 on is past the floats. *)
Lemma binary64_overflow (neg : bool) (n : Z) :
  (2 ^ 1024 <= n)%Z → binary64 neg n 1 = Infinity neg.
Proof.
  intros Hn. unfold binary64.
  assert (Hpos : (0 < n)%Z) by (pose proof (Z.pow_pos_nonneg 2 1024); lia).
  destruct (n =? 0)%Z eqn:E0; [apply Z.eqb_eq in E0; lia|].
  rewrite log2_ratio_1 by done.
  assert (HL : (1024 <= Z.log2 n)%Z) by (apply Z.log2_le_pow2; lia).
  rewrite Z.max_l by lia.
  destruct (0 <=? Z.log2 n - 52)%Z; destruct (_ =? 2 ^ 53)%Z;
    (destruct (971 <? _)%Z eqn:E; [done|apply Z.ltb_ge in E; lia]).
Qed.

Lemma digit_not_sign (c : ascii) :
  is_digit c = true → Ascii.eqb c "-" = false ∧ Ascii.eqb c "+" = false.
Proof. destruct c as [[] [] [] [] [] [] [] []]; by vm_compute. Qed.

(** [float()] of a signed run of digits. *)
Lemma py_float_digits (neg : bool) (ds : list ascii) :
  ds ≠ [] → forallb is_digit ds = true →
  py_float (sign_text neg ++ ds) = Ok (binary64 neg (digits_value 0 ds) 1).
Proof.
  intros Hne Hds. unfold py_float.
  assert (Hsign : split_sign (sign_text neg ++ ds) = (neg, ds)).
  { destruct neg; [done|]. destruct ds as [|c ds]; [done|].
    simpl in Hds. apply andb_prop in Hds as [Hc _].
    apply digit_not_sign in Hc as [H1 H2]. unfold split_sign, sign_text.
    simpl. by rewrite H1, H2. }
  rewrite Hsign. unfold decimal_parts.
  rewrite <- (app_nil_r ds) at 1. rewrite span_app by done.
  by destruct ds.
Qed.

(** X6.  A volume or decimals value written as an integer of magnitude
    below 2^53 (at most 15 digits, say) is stored exactly, with its sign,
    although it goes through [float]. *)
Theorem integer_field_exact_below_2_53 (f : string) (full : list ascii)
    (pd : gmap string pyvalue) (neg : bool) (ds : list ascii) :
  f ∈ ["volume"; "decimals"] →
  re_search_field f full = Some (sign_text neg ++ ds) →
  ds ≠ [] → forallb is_digit ds = true →
  (digits_value 0 ds < 2 ^ 53)%Z →
  extract_field full pd f
  = Ok (<[f := PInt (signed neg (digits_value 0 ds))]> pd).
Proof.
  intros Hf Hs Hne Hds Hlt. unfold extract_field. rewrite Hs.
  rewrite bool_decide_eq_true_2 by done.
  rewrite py_float_digits, bind_Ok by done.
  rewrite binary64_integer_exact; [done|].
  split; [by apply digits_value_nonneg|done].
Qed.

(** X7.  A value written as an integer from 2^1024 on is past the floats:
    for open, high, low, close and pctrel the point silently holds
    infinity, while for volume and decimals the loop raises
    [OverflowError]. *)
Theorem huge_field_value (f : string) (full : list ascii)
    (pd : gmap string pyvalue) (neg : bool) (ds : list ascii) :
  re_search_field f full = Some (sign_text neg ++ ds) →
  ds ≠ [] → forallb is_digit ds = true →
  (2 ^ 1024 <= digits_value 0 ds)%Z →
  extract_field full pd f
  = if bool_decide (f ∈ ["volume"; "decimals"]) then Raise OverflowError
    else Ok (<[f := PFloat (Infinity neg)]> pd).
Proof.
  intros Hs Hne Hds Hbig. unfold extract_field. rewrite Hs.
  rewrite py_float_digits by done. rewrite binary64_overflow by done.
  by destruct (bool_decide _).
Qed.

(** ** When the parser raises *)

Lemma comprehension_is_ok {A B} (f : A → result B) (xs : list A) :
  is_ok (comprehension f xs) = forallb (λ x, is_ok (f x)) xs.
Proof.
  induction xs as [|x xs IH]; [done|]. simpl.
  destruct (f x); [|done]. rewrite bind_Ok, <- IH.
  by destruct (comprehension f xs).
Qed.

Lemma comprehension_Raise {A B} (f : A → result B) (xs : list A) (e : exn) :
  comprehension f xs = Raise e
  ↔ ∃ xs1 x xs2, xs = xs1 ++ x :: xs2
      ∧ forallb (λ x, is_ok (f x)) xs1 = true ∧ f x = Raise e.
Proof.
  induction xs as [|x xs IH]; simpl.
  - split; [done|]. intros (xs1 & y & xs2 & H & _). by destruct xs1.
  - destruct (f x) as [y|e'] eqn:E.
    + rewrite bind_Ok. split.
      * intros H. destruct (comprehension f xs) as [ys|e'']; [done|].
        rewrite bind_Raise in H. simplify_eq.
        destruct (proj1 IH eq_refl) as (xs1 & z & xs2 & -> & Hok & Hz).
        exists (x :: xs1), z, xs2. simpl. by rewrite E, Hok.
      * intros (xs1 & z & xs2 & Hx & Hok & Hz).
        destruct xs1 as [|x1 xs1]; simpl in Hx; simplify_eq; [congruence|].
        simpl in Hok. apply andb_prop in Hok as [_ Hok].
        rewrite (proj2 IH); [done|]. by exists xs1, z, xs2.
    + rewrite bind_Raise. split.
      * intros H. simplify_eq. by exists [], x, xs.
      * intros (xs1 & z & xs2 & Hx & Hok & Hz).
        destruct xs1 as [|x1 xs1]; simpl in Hx; simplify_eq; [congruence|].
        simpl in Hok. by rewrite E in Hok.
Qed.

Lemma forallb_pointwise {A} (f g : A → bool) (xs : list A) :
  (∀ x, f x = g x) → forallb f xs = forallb g xs.
Proof. intros H. induction xs as [|x xs IH]; [done|]. simpl. by rewrite H, IH. Qed.

Lemma is_ok_object_points (d r : list ascii) :
  is_ok (object_points d r) = converts (d, r).
Proof.
  destruct (converts (d, r)) eqn:E.
  - by destruct (object_points_converts d r E) as (c & -> & _).
  - destruct (object_points d r) as [c|e] eqn:H; [|done].
    apply object_points_Ok_converts in H. congruence.
Qed.

Lemma parse_object_Raise (pts : list ChartPoint) (d r : list ascii) (e : exn) :
  parse_object pts (d, r) = Raise e ↔ object_points d r = Raise e.
Proof.
  rewrite parse_object_points. destruct (object_points d r); [done|].
  by rewrite bind_Raise.
Qed.

(** X8.  The parser returns exactly when every conversion applied to the
    matched fragments succeeds: one fragment that does not convert makes
    the whole call raise. *)
Theorem parse_returns_iff_fragments_convert (text : list ascii) :
  is_ok (_parse_chart_response text) = forallb converts (findall_objects text).
Proof.
  rewrite parse_chart_response_eq.
  transitivity (is_ok (comprehension (λ o, object_points o.1 o.2)
                         (findall_objects text))).
  { by destruct (comprehension _ _). }
  rewrite comprehension_is_ok. apply forallb_pointwise.
  intros [d r]. apply is_ok_object_points.
Qed.

(** X9.  The parser raises an exception exactly when some matched fragment
    raises it in the loop while every fragment before it in the text
    converts: the first failure decides, later fragments are not looked at
    and the points of the earlier ones are lost. *)
Theorem parse_raises_at_first_failure (text : list ascii) (e : exn) :
  _parse_chart_response text = Raise e
  ↔ ∃ before d r after,
      findall_objects text = before ++ (d, r) :: after
      ∧ forallb converts before = true
      ∧ parse_object [] (d, r) = Raise e.
Proof.
  rewrite parse_chart_response_eq.
  transitivity (comprehension (λ o, object_points o.1 o.2)
                  (findall_objects text) = Raise e).
  { destruct (comprehension _ _) as [cs|e']; rewrite ?bind_Ok, ?bind_Raise;
      split; intros H; by simplify_eq. }
  rewrite comprehension_Raise. split.
  - intros (xs1 & [d r] & xs2 & Hx & Hok & Hr). exists xs1, d, r, xs2.
    split; [done|]. split; [|by apply parse_object_Raise].
    rewrite <- Hok. apply forallb_pointwise. intros [d' r'].
    symmetry. apply is_ok_object_points.
  - intros (xs1 & d & r & xs2 & Hx & Hok & Hr). exists xs1, (d, r), xs2.
    split; [done|]. split; [|by apply parse_object_Raise in Hr].
    rewrite <- Hok. apply forallb_pointwise. intros [d' r'].
    apply is_ok_object_points.
Qed.

(** X10.  Whatever the text, the only exceptions of the parser are
    [ValueError] and [OverflowError]; it raises no [IndexError] or
    [KeyError] of its own lookups. *)
Theorem parser_raises_only_conversion_errors (text : list ascii) (e : exn) :
  _parse_chart_response text = Raise e → e = ValueError ∨ e = OverflowError.
Proof. apply parse_chart_response_raises. Qed.

(** ** Texts put together *)

Lemma comprehension_app {A B} (f : A → result B) (xs ys : list A) :
  comprehension f (xs ++ ys) =
  (a ← comprehension f xs; b ← comprehension f ys; Ok (a ++ b)).
Proof.
  induction xs as [|x xs IH]; simpl.
  - rewrite ?bind_Ok. by destruct (comprehension f ys).
  - destruct (f x) as [y|]; [|done]. rewrite ?bind_Ok, IH.
    destruct (comprehension f xs) as [a|]; [|done]. rewrite ?bind_Ok.
    destruct (comprehension f ys) as [b|]; [|done]. by rewrite ?bind_Ok.
Qed.

Lemma render_app (c1 c2 : list (list ascii * (list ascii * list ascii)))
    (last : list ascii) :
  render (c1 ++ c2) last = render c1 (render c2 last).
Proof.
  induction c1 as [|[gap [d r]] c1 IH]; [done|]. simpl. by rewrite IH.
Qed.

(** X11.  Parsing a text made of two runs of well-formed fragments gives
    the points of the first run followed by the points of the second, and
    raises what the first run raises, else what the second raises. *)
Theorem parse_chart_response_app
    (c1 c2 : list (list ascii * (list ascii * list ascii))) (last : list ascii) :
  forallb well_formed_chunk c1 = true → forallb well_formed_chunk c2 = true →
  forallb not_lbrace last = true →
  _parse_chart_response (render c1 [] ++ render c2 last) =
  (p1 ← _parse_chart_response (render c1 []);
   p2 ← _parse_chart_response (render c2 last);
   Ok (p1 ++ p2)).
Proof.
  intros H1 H2 Hl.
  assert (Happ : render c1 [] ++ render c2 last = render (c1 ++ c2) last).
  { rewrite render_app. clear. induction c1 as [|[gap [d r]] c1 IH]; [done|].
    cbn [render]. by rewrite <- !app_assoc, IH. }
  rewrite Happ, !parse_chart_response_render; try done.
  2:{ by rewrite forallb_app, H1, H2. }
  rewrite map_app, comprehension_app.
  destruct (comprehension _ (map snd c1)) as [a|]; [|done]. rewrite !bind_Ok.
  destruct (comprehension _ (map snd c2)) as [b|]; [|done]. rewrite !bind_Ok.
  by rewrite concat_app.
Qed.

(** ** Where the fields are read *)

(** X12.  The field loop searches the rebuilt fragment, date part
    included, but for a date part that converts it finds what it would
    find in the rest part alone: no value is ever read out of the date. *)
Theorem fields_read_from_rest_part (d r : list ascii) (vs : list Z)
    (pd : gmap string pyvalue) (f : string) :
  f ∈ fields → date_values d = Ok vs →
  extract_field (full_obj d r) pd f = extract_field (r ++ "}") pd f.
Proof.
  intros Hf Hd. unfold extract_field.
  by rewrite (re_search_field_full_obj f d r vs).
Qed.

(** ** The text of the date part *)

Lemma lstrip_by_app_all (p : ascii → bool) (w s : list ascii) :
  forallb p w = true → lstrip_by p (w ++ s) = lstrip_by p s.
Proof.
  induction w as [|c w IH]; [done|]. simpl.
  intros [-> Hw]%andb_prop. by apply IH.
Qed.

Lemma lstrip_by_app_some (p : ascii → bool) (u v : list ascii) :
  existsb (λ c, negb (p c)) u = true → lstrip_by p (u ++ v) = lstrip_by p u ++ v.
Proof.
  induction u as [|c u IH]; [done|]. simpl.
  destruct (p c); simpl; [by apply IH|done].
Qed.

Lemma lstrip_by_all (p : ascii → bool) (s : list ascii) :
  forallb p s = true → lstrip_by p s = [].
Proof.
  intros H. rewrite <- (app_nil_r s). by rewrite lstrip_by_app_all.
Qed.

Lemma forallb_or_existsb (p : ascii → bool) (s : list ascii) :
  forallb p s = true ∨ existsb (λ c, negb (p c)) s = true.
Proof.
  induction s as [|c s [IH|IH]]; simpl; [by left| |].
  - destruct (p c); [by left|by right].
  - right. by rewrite IH, orb_true_r.
Qed.

Lemma forallb_rev (p : ascii → bool) (s : list ascii) :
  forallb p s = true → forallb p (rev s) = true.
Proof.
  rewrite !forallb_forall. intros H c Hc. apply H. by apply in_rev.
Qed.

(** Whitespace around a text does not change what [strip] leaves of it. *)
Lemma strip_by_padded (p : ascii → bool) (w1 x w2 : list ascii) :
  forallb p w1 = true → forallb p w2 = true →
  strip_by p (w1 ++ x ++ w2) = strip_by p x.
Proof.
  intros H1 H2. unfold strip_by. rewrite lstrip_by_app_all by done.
  destruct (forallb_or_existsb p x) as [Hx|Hx].
  - rewrite (lstrip_by_all p (x ++ w2)) by (by rewrite forallb_app, Hx, H2).
    by rewrite (lstrip_by_all p x).
  - rewrite lstrip_by_app_some by done. rewrite rev_app_distr.
    rewrite lstrip_by_app_all; [done|]. by apply forallb_rev.
Qed.

Lemma split_no_sep (sep : ascii) (x : list ascii) :
  forallb (λ a, negb (Ascii.eqb a sep)) x = true → split sep x = [x].
Proof.
  induction x as [|c x IH]; [done|]. simpl.
  intros [Hc Hx]%andb_prop. apply negb_true_iff in Hc. rewrite Hc.
  by rewrite IH.
Qed.

Lemma split_app_sep (sep : ascii) (x t : list ascii) :
  forallb (λ a, negb (Ascii.eqb a sep)) x = true →
  split sep (x ++ sep :: t) = x :: split sep t.
Proof.
  induction x as [|c x IH]; simpl.
  - intros _. by rewrite Ascii.eqb_refl.
  - intros [Hc Hx]%andb_prop. apply negb_true_iff in Hc. rewrite Hc.
    by rewrite IH.
Qed.

(** [sep.join(xs).split(sep)] gives [xs] back when no element holds the
    separator. *)
Lemma split_join (sep : ascii) (xs : list (list ascii)) :
  xs ≠ [] → forallb (forallb (λ a, negb (Ascii.eqb a sep))) xs = true →
  split sep (join sep xs) = xs.
Proof.
  induction xs as [|x xs IH]; [done|]. intros _.
  cbn [forallb join]. intros [Hx Hxs]%andb_prop.
  destruct xs as [|y ys]; [by apply split_no_sep|].
  rewrite split_app_sep by done. f_equal. by apply IH.
Qed.

Lemma space_not_comma (c : ascii) :
  is_space c = true → negb (Ascii.eqb c ",") = true.
Proof. destruct c as [[] [] [] [] [] [] [] []]; by vm_compute. Qed.

Lemma padded_no_comma (c : list ascii * list ascii * list ascii) :
  whitespace_padded c = true →
  forallb (λ a, negb (Ascii.eqb a ",")) (padded c) = true.
Proof.
  unfold whitespace_padded, padded.
  intros [[H1 H2]%andb_prop Hx]%andb_prop.
  assert (Hsp : ∀ w, forallb is_space w = true →
                forallb (λ a, negb (Ascii.eqb a ",")) w = true).
  { intros w Hw. apply forallb_forall. intros a Ha.
    apply space_not_comma. by eapply forallb_forall in Hw. }
  rewrite !forallb_app, Hx. by rewrite !Hsp.
Qed.

(** The point built from a fragment depends on the text of its date part
    only through the integers it denotes. *)
Lemma parse_object_date_values (pts : list ChartPoint) (d1 d2 r : list ascii) :
  date_values d1 = date_values d2 →
  parse_object pts (d1, r) = parse_object pts (d2, r).
Proof.
  intros H. rewrite !parse_object_points. f_equal. unfold object_points.
  rewrite H. destruct (date_values d2) as [vs|e] eqn:H2; [|done].
  assert (Hf : ∀ f : string, f ∈ fields →
            field_value (full_obj d1 r) f = field_value (full_obj d2 r) f).
  { intros f Hf. unfold field_value.
    by rewrite (re_search_field_full_obj f d1 r vs),
               (re_search_field_full_obj f d2 r vs). }
  rewrite !bind_Ok. destruct (3 <=? length vs)%nat; [|done]. cbv zeta.
  by rewrite (Hf "close"), (Hf "high"), (Hf "low"), (Hf "open"),
             (Hf "volume"), (Hf "pctrel"), (Hf "decimals") by in_fields.
Qed.

Lemma comprehension_map_ext {A B C} (f : B → result C) (g h : A → B)
    (cs : list A) :
  Forall (λ c, f (g c) = f (h c)) cs →
  comprehension f (map g cs) = comprehension f (map h cs).
Proof.
  induction 1 as [|c cs Hc _ IH]; [done|]. simpl. by rewrite Hc, IH.
Qed.

(** X13.  Two date texts that denote the same integers, component by
    component, give the same result with the same rest part: signs written
    out, leading zeros, underscores between digits and whitespace make no
    difference. *)
Theorem point_depends_on_date_values (pts : list ChartPoint)
    (d1 d2 r : list ascii) (vs : list Z) :
  date_values d1 = Ok vs → date_values d2 = Ok vs →
  parse_object pts (d1, r) = parse_object pts (d2, r).
Proof. intros H1 H2. apply parse_object_date_values. by rewrite H1, H2. Qed.

(** X14.  Whitespace around the components of the date part is ignored:
    the result for components padded with whitespace is the result for the
    bare components, whether it is a point or an exception. *)
Theorem date_components_whitespace (pts : list ChartPoint)
    (comps : list (list ascii * list ascii * list ascii)) (r : list ascii) :
  comps ≠ [] → forallb whitespace_padded comps = true →
  parse_object pts (join "," (map padded comps), r)
  = parse_object pts (join "," (map (λ c, c.1.2) comps), r).
Proof.
  intros Hne Hwf. apply parse_object_date_values. unfold date_values.
  rewrite !split_join.
  - apply comprehension_map_ext. apply Forall_forall. intros c Hc.
    apply list_elem_of_In in Hc. eapply forallb_forall in Hwf; [|done].
    unfold whitespace_padded in Hwf.
    apply andb_prop in Hwf as [[H1 H2]%andb_prop _].
    unfold strip, padded. by rewrite strip_by_padded.
  - by destruct comps.
  - rewrite forallb_forall. intros x Hx. apply in_map_iff in Hx as (c & <- & Hc).
    eapply forallb_forall in Hwf; [|done].
    unfold whitespace_padded in Hwf. by apply andb_prop in Hwf as [_ ?].
  - by destruct comps.
  - rewrite forallb_forall. intros x Hx. apply in_map_iff in Hx as (c & <- & Hc).
    eapply forallb_forall in Hwf; [|done]. by apply padded_no_comma.
Qed.

(** X15.  A date part with an empty or all-whitespace component (a
    trailing comma, two commas in a row) makes the loop raise
    [ValueError], however many components there are. *)
Theorem empty_date_component_raises (pts : list ChartPoint)
    (xs : list (list ascii)) (x r : list ascii) :
  forallb (forallb (λ a, negb (Ascii.eqb a ","))) xs = true →
  x ∈ xs → forallb is_space x = true →
  parse_object pts (join "," xs, r) = Raise ValueError.
Proof.
  intros Hxs Hx Hsp. rewrite parse_object_points. unfold object_points.
  assert (Hd : date_values (join "," xs) = Raise ValueError).
  { destruct (date_values (join "," xs)) as [vs|e] eqn:E.
    - unfold date_values in E. rewrite split_join in E; [|by destruct Hx|done].
      apply comprehension_Ok in E.
      apply list_elem_of_lookup in Hx as [i Hi].
      destruct (Forall2_lookup_l _ _ _ _ _ E Hi) as (z & _ & Hz).
      unfold strip, strip_by in Hz. rewrite (lstrip_by_all is_space x) in Hz by done.
      done.
    - f_equal. by eapply date_values_raises. }
  by rewrite Hd.
Qed.

(** ** The chart request and its outcome *)

(** X16.  When [get_chart_data] raises, the exception is the one of the
    transport, or the one of the status check of the response, or a
    [ValueError] or [OverflowError] of the parser. *)
Theorem get_chart_data_raises (self : FinmarketClient) (id : Z)
    (ts quality : list ascii) (volume : bool) (e : exn) :
  get_chart_data self id ts quality volume = Raise e →
  session_get (BASE_URL ++ "/chart/datachart.html")
    (chart_params id ts quality volume) (timeout self) = Raise e
  ∨ (∃ response,
       session_get (BASE_URL ++ "/chart/datachart.html")
         (chart_params id ts quality volume) (timeout self) = Ok response
       ∧ raise_for_status response = Raise e)
  ∨ e = ValueError ∨ e = OverflowError.
Proof.
  rewrite get_chart_data_request.
  destruct (session_get _ _ _) as [response|e'] eqn:Hget.
  2:{ rewrite bind_Raise. intros; simplify_eq. by left. }
  rewrite bind_Ok. destruct (raise_for_status response) as [[]|e'] eqn:Hst.
  2:{ rewrite bind_Raise. intros; simplify_eq. right. left. by exists response. }
  rewrite bind_Ok.
  destruct (_parse_chart_response (text response)) as [pts|e'] eqn:Hp; [done|].
  rewrite bind_Raise. intros; simplify_eq. right. right.
  by eapply parse_chart_response_raises.
Qed.

(** X17.  Whatever the time span, [get_chart_data] hands the transport
    one request, at the chart address and with the timeout of the client,
    whose query parameters hold the identifier as ID_NOTATION, the quality
    as QUALITY and the volume flag in lower case, true or false, as VOLUME,
    and no key besides these three, TIME_SPAN, DATEINI and DATEFIN. *)
Theorem get_chart_data_fixed_params (self : FinmarketClient) (id : Z)
    (ts quality : list ascii) (volume : bool) :
  let params := chart_params id ts quality volume in
  get_chart_data self id ts quality volume =
    (response ← session_get (BASE_URL ++ "/chart/datachart.html")
                  params (timeout self);
     _ ← raise_for_status response;
     points ← _parse_chart_response (text response);
     Ok (mk_ChartData id ts points))
  ∧ params !! "ID_NOTATION" = Some (PInt id)
  ∧ params !! "QUALITY" = Some (PStr quality)
  ∧ params !! "VOLUME" = Some (PStr (if volume then "true" else "false"))
  ∧ ∀ k, is_Some (params !! k) → k ∈ chart_keys.
Proof.
  intros params. subst params.
  split; [apply get_chart_data_request|].
  unfold chart_params.
  assert (Hv : lower (str_bool volume)
               = (if volume then "true" else "false" : list ascii))
    by (by destruct volume).
  rewrite Hv. destruct (bool_decide (ts = _));
    (split_and!;
     [by rewrite ?lookup_insert_eq, ?lookup_insert_ne by done ..|]);
    intros k [x Hx];
    repeat (apply lookup_insert_Some in Hx as [[<- _]|[_ Hx]];
            [by apply (bool_decide_unpack _); vm_compute|]);
    by rewrite lookup_empty in Hx.
Qed.

(** X18.  The four convenience methods send one request each, to the chart
    address, for real-time quality without volume, with the time span 1D,
    5D, 1M and 1Y respectively and no date, and return the parsed points
    under that time span. *)
Theorem convenience_methods_request (self : FinmarketClient) (id : Z) :
  let request span :=
    response ← session_get (BASE_URL ++ "/chart/datachart.html")
                 (convenience_params id span) (timeout self);
    _ ← raise_for_status response;
    points ← _parse_chart_response (text response);
    Ok (mk_ChartData id span points) in
  get_intraday self id = request ("1D" : list ascii)
  ∧ get_weekly self id = request ("5D" : list ascii)
  ∧ get_monthly self id = request ("1M" : list ascii)
  ∧ get_yearly self id = request ("1Y" : list ascii).
Proof. by split_and!. Qed.

(** ** What the search mapper raises and keeps *)

Lemma py_int_of_raises (v : pyvalue) (e : exn) :
  py_int_of v = Raise e → e = TypeError ∨ e = ValueError ∨ e = OverflowError.
Proof.
  destruct v as [| | |f|s| | |]; simpl; intros H; simplify_eq; auto.
  - destruct f; simpl in H; simplify_eq; auto.
  - apply py_int_raises in H. auto.
Qed.

Lemma map_record_raises (item : pyvalue) (e : exn) :
  map_record item = Raise e → record_exception item e.
Proof.
  destruct item as [| | | | | | |d]; simpl; try (intros; by simplify_eq).
  unfold search_result_of.
  destruct (py_int_of _) as [z|e'] eqn:E; [done|].
  rewrite bind_Raise. intros; simplify_eq. by eapply py_int_of_raises.
Qed.

Lemma map_record_raw_data (item : pyvalue) (r : SearchResult) :
  map_record item = Ok r → raw_data r = item ∧ ∃ d, item = PDict d.
Proof.
  destruct item as [| | | | | | |d]; simpl; try done.
  unfold search_result_of. destruct (py_int_of _) as [z|]; [|done].
  rewrite bind_Ok. intros; simplify_eq. split; [done|by eexists].
Qed.

(** X19.  When the transport has answered with a list and [search]
    raises, some element of the list raises while every element before it
    maps: the exception is [AttributeError] for an element that is not an
    object, and a [TypeError], [ValueError] or [OverflowError] of the
    conversion of the identifier otherwise. *)
Theorem search_raises_at_first_bad_record (self : FinmarketClient)
    (query market : list ascii) (response : Response) (items : list pyvalue)
    (e : exn) :
  session_get (BASE_URL ++ "/global/buscador.html")
    (<["MERCADO" := PStr market]> (<["SEARCH_VALUE" := PStr query]> ∅))
    (timeout self) = Ok response →
  raise_for_status response = Ok () →
  json response = Ok (PList items) →
  search self query market = Raise e →
  ∃ before item after,
    items = before ++ item :: after
    ∧ forallb (λ x, is_ok (search_item x)) before = true
    ∧ search_item item = Raise e
    ∧ record_exception item e.
Proof.
  intros Hget Hstatus Hjson. unfold search. cbv zeta.
  rewrite Hget, bind_Ok, Hstatus, bind_Ok, Hjson, bind_Ok.
  rewrite for_each_append. intros H.
  assert (Hc : comprehension search_item items = Raise e).
  { destruct (comprehension search_item items); [done|].
    by rewrite bind_Raise in H. }
  apply comprehension_Raise in Hc as (before & item & after & -> & Hok & Hr).
  exists before, item, after. split_and!; try done.
  apply map_record_raises. by rewrite <- search_item_eq.
Qed.

(** X20.  When the transport has answered with a list and [search]
    returns, there is one result per element, in order; every element was
    an object, and each result keeps its element as [raw_data]. *)
Theorem search_results_keep_records (self : FinmarketClient)
    (query market : list ascii) (response : Response) (items : list pyvalue)
    (results : list SearchResult) :
  session_get (BASE_URL ++ "/global/buscador.html")
    (<["MERCADO" := PStr market]> (<["SEARCH_VALUE" := PStr query]> ∅))
    (timeout self) = Ok response →
  raise_for_status response = Ok () →
  json response = Ok (PList items) →
  search self query market = Ok results →
  Forall2 (λ item r, raw_data r = item ∧ ∃ d, item = PDict d) items results.
Proof.
  intros Hget Hstatus Hjson. unfold search. cbv zeta.
  rewrite Hget, bind_Ok, Hstatus, bind_Ok, Hjson, bind_Ok.
  rewrite for_each_append. intros H.
  apply bind_Ok_inv in H as (rs & Hrs & H). simplify_eq.
  apply comprehension_Ok in Hrs. simpl.
  eapply Forall2_impl; [exact Hrs|]. intros item r Hr.
  apply map_record_raw_data. by rewrite <- search_item_eq.
Qed.

End Client.

(** * The theorems at concrete inputs

    The interpreter's digit limit is at its default, 4300. *)

Lemma float_literals :
  py_float "0.24" = Ok f_0_24 ∧ py_float "0.25" = Ok f_0_25
  ∧ py_float "0.30" = Ok f_0_30 ∧ py_float "0.83" = Ok f_0_83.
Proof. by vm_compute. Qed.

(** The tests of the repository that fix values, replayed on the model. *)
Example test_get_chart_data_success :
  ∃ p, get_chart_data 4300 (2026, 11, 3)%Z
         (answering_text
            "[{date:new Date(2025, 0, 21, 9, 0, 0),close:0.24,high:0.24,low:0.24,open:0.24,volume:12701745,pctrel:0.00,decimals:2}]")
         (mk_FinmarketClient 30) 4039 "1Y" "RLT" false
       = Ok (mk_ChartData 4039 "1Y" [p])
     ∧ close p = PFloat f_0_24 ∧ volume p = PInt 12701745.
Proof. eexists. split; [by vm_compute|]. by vm_compute. Qed.

Example test_get_chart_data_empty :
  get_chart_data 4300 (2026, 11, 3)%Z (answering_text "[]")
    (mk_FinmarketClient 30) 9999 "1Y" "RLT" false
  = Ok (mk_ChartData 9999 "1Y" []).
Proof. by vm_compute. Qed.

Example test_get_chart_data_with_volume_parameter :
  chart_params (2026, 11, 3)%Z 4039 "1Y" "RLT" true !! "VOLUME"
  = Some (PStr "true").
Proof. by vm_compute. Qed.

Example test_parse_chart_response_date_parsing :
  ∃ p, _parse_chart_response 4300
         "[{date:new Date(2025, 0, 21, 9, 30, 45),close:0.24,high:0.24,low:0.24,open:0.24,volume:12701745,pctrel:0.00,decimals:2}]"
       = Ok [p]
     ∧ date p = PDateTime (mk_datetime 2025 1 21 9 30 45).
Proof. eexists. split; by vm_compute. Qed.

Example test_parse_chart_response_missing_fields :
  _parse_chart_response 4300
    "[{date:new Date(2025, 0, 21, 9, 0, 0),close:0.24,decimals:2}]"
  = Ok [mk_ChartPoint (PDateTime (mk_datetime 2025 1 21 9 0 0))
          (PFloat float_zero) (PFloat float_zero) (PFloat float_zero)
          (PFloat f_0_24) (PInt 0) (PFloat float_zero) (PInt 2)].
Proof. by vm_compute. Qed.

(** C1 at a text in which one fragment has too few date components and
    another has no close. *)
Lemma parse_returns_when_fragments_convert_witness :
  forallb (converts 4300) (findall_objects response_mixed) = true
  ∧ ∃ pts, _parse_chart_response 4300 response_mixed = Ok pts
           ∧ length pts
             = length (filter (λ o, contributes 4300 o = true)
                         (findall_objects response_mixed)).
Proof.
  split; [by vm_compute|].
  apply (parse_returns_when_fragments_convert 4300 response_mixed).
  by vm_compute.
Defined.

(** C1 as stated fails: a date component that is not an integer literal,
    and a day that the month does not have, make the parser raise. *)
Lemma parse_raises_on_malformed_date :
  _parse_chart_response 4300 "[{date:new Date(abc),close:1}]" = Raise ValueError
  ∧ _parse_chart_response 4300 "[{date:new Date(2025, 1, 30),close:0.24}]"
    = Raise ValueError.
Proof. by vm_compute. Qed.

(** C2 at the fragment of the date-parsing test. *)
Lemma valid_fragment_timestamp_and_close_witness :
  ∃ p, _parse_chart_response 4300
         "[{date:new Date(2025, 0, 21, 9, 30, 45),close:0.24,high:0.24,low:0.24,open:0.24,volume:12701745,pctrel:0.00,decimals:2}]"
       = Ok [p]
     ∧ date p = PDateTime (mk_datetime 2025 1 21 9 30 45)
     ∧ close p = PFloat f_0_24.
Proof.
  destruct (valid_fragment_timestamp_and_close 4300
              "[" "]" "2025, 0, 21, 9, 30, 45" "," "0.24"
              ",high:0.24,low:0.24,open:0.24,volume:12701745,pctrel:0.00,decimals:2"
              2025 0 21 [9; 30; 45]%Z (mk_datetime 2025 1 21 9 30 45) f_0_24)
    as (p & _ & Hp & Hdate & _ & _ & _ & _ & _ & _ & Hclose);
    [by vm_compute..|].
  exists p. split; [exact Hp|]. split; [exact Hdate|exact Hclose].
Defined.

(** C3 at a fragment with two date components and at one without close. *)
Lemma fragment_without_date_or_close_adds_no_point_witness :
  parse_object 4300 [] ("2025, 0" : list ascii, ",close:0.24" : list ascii) = Ok []
  ∧ parse_object 4300 [] ("2025, 0, 22" : list ascii, ",high:0.25" : list ascii)
    = Ok [].
Proof.
  split.
  - apply (fragment_without_date_or_close_adds_no_point 4300 []
             "2025, 0" ",close:0.24"); [left; vm_compute; lia|by vm_compute].
  - apply (fragment_without_date_or_close_adds_no_point 4300 []
             "2025, 0, 22" ",high:0.25"); [right; by vm_compute|by vm_compute].
Defined.

(** C3 as stated fails: a fragment with fewer than three date components
    is not always passed over silently. *)
Lemma short_date_fragment_raises :
  length (split "," "2025, x") = 2%nat
  ∧ _parse_chart_response 4300 "[{date:new Date(2025, x)}]" = Raise ValueError.
Proof. by vm_compute. Qed.

(** C4 at a fragment with a date and a close only. *)
Lemma only_date_and_close_defaults_witness :
  _parse_chart_response 4300 "[{date:new Date(2025, 0, 21, 9, 0, 0),close:0.24}]"
  = Ok [mk_ChartPoint (PDateTime (mk_datetime 2025 1 21 9 0 0))
          (PFloat float_zero) (PFloat float_zero) (PFloat float_zero)
          (PFloat f_0_24) (PInt 0) (PFloat float_zero) (PInt 2)].
Proof.
  apply (only_date_and_close_defaults 4300 "[" "]" "2025, 0, 21, 9, 0, 0"
           "," "0.24" "" [2025; 0; 21; 9; 0; 0]%Z
           (mk_datetime 2025 1 21 9 0 0) f_0_24); by vm_compute.
Defined.

(** C5 at the two fragments of the test, closes 0.24 then 0.25. *)
Lemma parse_preserves_source_order_witness :
  (∃ pts, _parse_chart_response 4300 response_two_points = Ok pts
          ∧ map close pts = [PFloat f_0_24; PFloat f_0_25])
  ∧ in_source_order (findall_objects response_two_points) response_two_points.
Proof.
  assert (H : ∃ pts, _parse_chart_response 4300 response_two_points = Ok pts
                     ∧ map close pts = [PFloat f_0_24; PFloat f_0_25]).
  { eexists. split; by vm_compute. }
  split; [exact H|]. destruct H as (pts & Hpts & _).
  exact (proj1 (parse_preserves_source_order 4300 response_two_points pts Hpts)).
Defined.

(** C6 fails on the code: the field pattern has no boundary before the
    field name, so an unknown key that ends in a recognised name is read
    as that field.  Adding [prevclose:0.30] in front of [close:0.24] changes
    the close of the point from 0.24 to 0.30. *)
Theorem unknown_key_ending_in_field_name_is_read :
  (∃ p, _parse_chart_response 4300 "[{date:new Date(2025, 0, 21),close:0.24}]"
        = Ok [p]
        ∧ close p = PFloat f_0_24)
  ∧ (∃ p, _parse_chart_response 4300
            "[{date:new Date(2025, 0, 21),prevclose:0.30,close:0.24}]"
          = Ok [p]
          ∧ close p = PFloat f_0_30)
  ∧ py_float "0.24" = Ok f_0_24 ∧ py_float "0.30" = Ok f_0_30
  ∧ f_0_24 ≠ f_0_30.
Proof.
  split; [eexists; split; by vm_compute|].
  split; [eexists; split; by vm_compute|].
  split; [by vm_compute|]. split; [by vm_compute|]. discriminate.
Qed.

(** C7 at the fragment of the negative-values test: pctrel is -0.83. *)
Lemma volume_integer_and_pctrel_signed_witness :
  ∃ p, _parse_chart_response 4300 response_negative_pctrel = Ok [p]
     ∧ volume p = PInt 12701745
     ∧ pctrel p = PFloat (float_neg f_0_83)
     ∧ ∃ d r, (d, r) ∈ findall_objects response_negative_pctrel
         ∧ parse_object 4300 [] (d, r) = Ok [p]
         ∧ (∃ n, volume p = PInt n
               ∧ match re_search_field "volume" (full_obj d r) with
                 | None => n = 0%Z
                 | Some v =>
                     convert_field "volume" v = Ok (PInt n)
                     ∧ (head v ≠ Some "-"%char → (0 <= n)%Z)
                 end)
         ∧ match re_search_field "pctrel" (full_obj d r) with
           | None => pctrel p = PFloat float_zero
           | Some v =>
               ∃ x, py_float v = Ok x ∧ pctrel p = PFloat x
                    ∧ ∀ u, v = "-"%char :: u →
                           ∃ y, py_float u = Ok y ∧ x = float_neg y
           end.
Proof.
  assert (H : ∃ p, _parse_chart_response 4300 response_negative_pctrel = Ok [p]
                   ∧ volume p = PInt 12701745
                   ∧ pctrel p = PFloat (float_neg f_0_83)).
  { eexists. split; [by vm_compute|]. split; by vm_compute. }
  destruct H as (p & Hp & Hv & Hpct). exists p.
  split; [exact Hp|]. split; [exact Hv|]. split; [exact Hpct|].
  apply (volume_integer_and_pctrel_signed 4300 response_negative_pctrel [p] p Hp).
  by left.
Defined.

(** C7 as stated fails: the volume of a point can be negative. *)
Lemma negative_volume_is_kept :
  ∃ p, _parse_chart_response 4300
         "[{date:new Date(2025, 0, 21),close:0.24,volume:-5}]" = Ok [p]
       ∧ volume p = PInt (-5).
Proof. eexists. split; by vm_compute. Qed.

(** C8 at the records of the tests, and at a response that is no list. *)
Lemma search_maps_records_witness :
  (∃ r1 r2,
     search 4300 (answering (PList [record_upper; record_lower]))
       (mk_FinmarketClient 30) "ipsa" "chile" = Ok [r1; r2]
     ∧ id_notation r1 = 3969%Z ∧ name r1 = PStr "IPSA"
     ∧ symbol r1 = PStr "IPSA" ∧ raw_data r1 = record_upper
     ∧ id_notation r2 = 4039%Z ∧ name r2 = PStr "ASSD")
  ∧ search 4300 (answering (PDict ∅)) (mk_FinmarketClient 30) "ipsa" "chile"
    = Ok [].
Proof.
  split.
  - pose proof (search_maps_records 4300
                  (answering (PList [record_upper; record_lower]))
                  (mk_FinmarketClient 30) "ipsa" "chile" _ _
                  eq_refl eq_refl eq_refl) as H.
    eexists _, _. split; [rewrite H; by vm_compute|]. by vm_compute.
  - exact (search_maps_records 4300 (answering (PDict ∅))
             (mk_FinmarketClient 30) "ipsa" "chile" _ _
             eq_refl eq_refl eq_refl).
Defined.

(** C8 as stated fails: a candidate key that is present with a falsy value
    is passed over, so the first key present does not decide. *)
Lemma search_passes_over_falsy_candidates :
  first_present ["ID_NOTATION"; "id_notation"; "id"] record_falsy = Some (PInt 0)
  ∧ first_present ["NAME"; "name"] record_falsy = Some (PStr "")
  ∧ ∃ r, search_item 4300 (PDict record_falsy) = Ok r
         ∧ id_notation r = 5%Z ∧ name r = PStr "ASSD".
Proof.
  split; [by vm_compute|]. split; [by vm_compute|].
  eexists. split; [by vm_compute|]. by vm_compute.
Qed.

(** C9 for MAX and for 1Y, on 3 November 2026, with transports that
    answer only a request at the chart address whose parameters are as the
    claim says, and fail on any other: the calls return. *)
Lemma get_chart_data_time_span_params_witness :
  (get_chart_data 4300 (2026, 11, 3)%Z
     (answering_if "/chart/datachart.html" expects_max "[]")
     (mk_FinmarketClient 30) 4039 "MAX" "RLT" true
   = Ok (mk_ChartData 4039 "MAX" [])
   ∧ let params := chart_params (2026, 11, 3)%Z 4039 "MAX" "RLT" true in
     params !! "DATEINI" = Some (PStr "1900-01-01")
     ∧ params !! "DATEFIN" = Some (PStr "2026-11-03")
     ∧ params !! "TIME_SPAN" = None)
  ∧ (get_chart_data 4300 (2026, 11, 3)%Z
       (answering_if "/chart/datachart.html" (expects_span "1Y") "[]")
       (mk_FinmarketClient 30) 4039 "1Y" "RLT" false
     = Ok (mk_ChartData 4039 "1Y" [])
     ∧ let params := chart_params (2026, 11, 3)%Z 4039 "1Y" "RLT" false in
       params !! "TIME_SPAN" = Some (PStr "1Y")
       ∧ params !! "DATEINI" = None
       ∧ params !! "DATEFIN" = None).
Proof.
  split.
  - destruct (get_chart_data_time_span_params 4300 (2026, 11, 3)%Z
                (answering_if "/chart/datachart.html" expects_max "[]")
                (mk_FinmarketClient 30) 4039 "MAX" "RLT" true)
      as (Hcall & Hmax & _); [by apply (bool_decide_unpack _); vm_compute|].
    split; [rewrite Hcall; by vm_compute|]. by apply Hmax.
  - destruct (get_chart_data_time_span_params 4300 (2026, 11, 3)%Z
                (answering_if "/chart/datachart.html" (expects_span "1Y") "[]")
                (mk_FinmarketClient 30) 4039 "1Y" "RLT" false)
      as (Hcall & _ & Hspan); [by apply (bool_decide_unpack _); vm_compute|].
    split; [rewrite Hcall; by vm_compute|]. by apply Hspan.
Defined.


(** X4 at the point of a fragment with a date and a close only. *)
Lemma parsed_points_well_formed_witness :
  ∃ t o h l c n pc k,
    point_close_only
    = mk_ChartPoint (PDateTime t) (PFloat o) (PFloat h) (PFloat l) (PFloat c)
        (PInt n) (PFloat pc) (PInt k)
    ∧ valid_datetime t = true
    ∧ is_number o ∧ is_number h ∧ is_number l ∧ is_number c ∧ is_number pc.
Proof.
  apply (parsed_points_well_formed 4300
           "[{date:new Date(2025, 0, 21, 9, 0, 0),close:0.24}]"
           [point_close_only] point_close_only); [by vm_compute|by left].
Defined.

(** X5 at 30 February 2025, month 1 of the source. *)
Lemma date_out_of_range_raises_witness :
  parse_object 4300 [] ("2025, 1, 30" : list ascii, ",close:0.24" : list ascii)
  = Raise ValueError
  ∨ parse_object 4300 [] ("2025, 1, 30" : list ascii, ",close:0.24" : list ascii)
    = Raise OverflowError.
Proof.
  apply (date_out_of_range_raises 4300 [] "2025, 1, 30" ",close:0.24"
           2025 1 30 []); by vm_compute.
Defined.

(** X6 at the volume of the tests. *)
Lemma integer_field_exact_below_2_53_witness :
  extract_field "{date:new Date(2025, 0, 21),volume:12701745}" ∅ "volume"
  = Ok (<["volume" := PInt (signed false (digits_value 0 "12701745"))]> ∅).
Proof.
  apply (integer_field_exact_below_2_53 "volume"
           "{date:new Date(2025, 0, 21),volume:12701745}" ∅ false "12701745");
    [by apply (bool_decide_unpack _); vm_compute|by vm_compute..].
Defined.

(** X7 at 10^309, as a close and as a volume. *)
Lemma huge_field_value_witness :
  extract_field ("close:" ++ digits_10_309) ∅ "close"
  = (if bool_decide ("close" ∈ ["volume"; "decimals"]) then Raise OverflowError
     else Ok (<["close" := PFloat (Infinity false)]> ∅))
  ∧ extract_field ("volume:" ++ digits_10_309) ∅ "volume"
    = (if bool_decide ("volume" ∈ ["volume"; "decimals"]) then Raise OverflowError
       else Ok (<["volume" := PFloat (Infinity false)]> ∅)).
Proof.
  split.
  - apply (huge_field_value "close" ("close:" ++ digits_10_309) ∅ false
             digits_10_309); by vm_compute.
  - apply (huge_field_value "volume" ("volume:" ++ digits_10_309) ∅ false
             digits_10_309); by vm_compute.
Defined.

(** X10 at a year that does not fit a C int. *)
Lemma parser_raises_only_conversion_errors_witness :
  _parse_chart_response 4300 "[{date:new Date(4294967296, 0, 1),close:1}]"
  = Raise OverflowError
  ∧ (OverflowError = ValueError ∨ OverflowError = OverflowError).
Proof.
  split; [by vm_compute|].
  apply (parser_raises_only_conversion_errors 4300
           "[{date:new Date(4294967296, 0, 1),close:1}]" OverflowError).
  by vm_compute.
Defined.

(** X11 at the two fragments of a response, one run each. *)
Lemma parse_chart_response_app_witness :
  let c1 := [("[" : list ascii,
              ("2025, 0, 21, 9, 0, 0" : list ascii, ",close:0.24" : list ascii))] in
  let c2 := [(", " : list ascii,
              ("2025, 0, 22, 9, 0, 0" : list ascii, ",close:0.25" : list ascii))] in
  _parse_chart_response 4300 (render c1 [] ++ render c2 "]") =
  (p1 ← _parse_chart_response 4300 (render c1 []);
   p2 ← _parse_chart_response 4300 (render c2 "]");
   Ok (p1 ++ p2)).
Proof.
  intros c1 c2. apply (parse_chart_response_app 4300 c1 c2 "]"); by vm_compute.
Defined.

(** X12 at a close after a date of three components. *)
Lemma fields_read_from_rest_part_witness :
  extract_field (full_obj "2025, 0, 21" ",close:0.24") ∅ "close"
  = extract_field (",close:0.24" ++ "}") ∅ "close".
Proof.
  apply (fields_read_from_rest_part 4300 "2025, 0, 21" ",close:0.24"
           [2025; 0; 21]%Z ∅ "close");
    [by apply (bool_decide_unpack _); vm_compute|by vm_compute].
Defined.

(** X13 at two ways of writing 21 January 2025. *)
Lemma point_depends_on_date_values_witness :
  parse_object 4300 [] ("2025,0,21" : list ascii, ",close:0.24" : list ascii)
  = parse_object 4300 []
      (" +2025 , 0_0 ,0021" : list ascii, ",close:0.24" : list ascii).
Proof.
  apply (point_depends_on_date_values 4300 [] "2025,0,21" " +2025 , 0_0 ,0021"
           ",close:0.24" [2025; 0; 21]%Z); by vm_compute.
Defined.

(** X14 at three components padded with blanks. *)
Lemma date_components_whitespace_witness :
  let comps := [(" " : list ascii, "2025" : list ascii, "" : list ascii);
                ("  " : list ascii, "0" : list ascii, " " : list ascii);
                ("" : list ascii, "21" : list ascii, " " : list ascii)] in
  parse_object 4300 [] (join "," (map padded comps), ",close:0.24" : list ascii)
  = parse_object 4300 []
      (join "," (map (λ c, c.1.2) comps), ",close:0.24" : list ascii).
Proof.
  intros comps.
  apply (date_components_whitespace 4300 [] comps ",close:0.24");
    [done|by vm_compute].
Defined.

(** X15 at a date part that ends with a comma. *)
Lemma empty_date_component_raises_witness :
  parse_object 4300 []
    (join "," ["2025" : list ascii; " 0" : list ascii; " 21" : list ascii; []],
     ",close:0.24" : list ascii)
  = Raise ValueError.
Proof.
  apply (empty_date_component_raises 4300 []
           ["2025" : list ascii; " 0" : list ascii; " 21" : list ascii; []]
           [] ",close:0.24");
    [by vm_compute|by repeat constructor|by vm_compute].
Defined.

(** X16 at a response whose date is no integer. *)
Lemma get_chart_data_raises_witness :
  let transport := answering_text "[{date:new Date(abc),close:1}]" in
  let self := mk_FinmarketClient 30 in
  transport (BASE_URL ++ "/chart/datachart.html")
    (chart_params (2026, 11, 3)%Z 4039 "1Y" "RLT" false) (timeout self)
  = Raise ValueError
  ∨ (∃ response,
       transport (BASE_URL ++ "/chart/datachart.html")
         (chart_params (2026, 11, 3)%Z 4039 "1Y" "RLT" false) (timeout self)
       = Ok response
       ∧ raise_for_status response = Raise ValueError)
  ∨ ValueError = ValueError ∨ ValueError = OverflowError.
Proof.
  intros transport self.
  apply (get_chart_data_raises 4300 (2026, 11, 3)%Z transport self 4039
           "1Y" "RLT" false ValueError).
  by vm_compute.
Defined.

(** X19 at a list whose second element is a string. *)
Lemma search_raises_at_first_bad_record_witness :
  ∃ before item after,
    [record_upper; PStr "IPSA"; record_lower] = before ++ item :: after
    ∧ forallb (λ x, is_ok (search_item 4300 x)) before = true
    ∧ search_item 4300 item = Raise AttributeError
    ∧ record_exception item AttributeError.
Proof.
  apply (search_raises_at_first_bad_record 4300
           (answering (PList [record_upper; PStr "IPSA"; record_lower]))
           (mk_FinmarketClient 30) "ipsa" "chile" _
           [record_upper; PStr "IPSA"; record_lower] AttributeError
           eq_refl eq_refl eq_refl).
  by vm_compute.
Defined.

(** X20 at the two records of the search example. *)
Lemma search_results_keep_records_witness :
  ∃ results,
    search 4300 (answering (PList [record_upper; record_lower]))
      (mk_FinmarketClient 30) "ipsa" "chile" = Ok results
    ∧ Forall2 (λ item r, raw_data r = item ∧ ∃ d, item = PDict d)
        [record_upper; record_lower] results.
Proof.
  assert (H : ∃ results,
            search 4300 (answering (PList [record_upper; record_lower]))
              (mk_FinmarketClient 30) "ipsa" "chile" = Ok results).
  { eexists. by vm_compute. }
  destruct H as [results H]. exists results. split; [exact H|].
  exact (search_results_keep_records 4300
           (answering (PList [record_upper; record_lower]))
           (mk_FinmarketClient 30) "ipsa" "chile" _
           [record_upper; record_lower] results
           eq_refl eq_refl eq_refl H).
Defined.
